(** * Virtual printer ingestion pipeline: a shallow embedding

    This development embeds the pipeline of [virtual-printer.py] (the key
    matcher and field normaliser, the S3 key derivation, the failure queue,
    the retry pass and the per-document handler [PDFHandler.on_created])
    and proves properties of it.

    Conventions of the embedding:
    - Python [str] values are [string]s; [str.lower] is modelled on ASCII
      text (bytes above 127 are left alone).
    - A Python [dict] with string keys is an association list in insertion
      order; [d[k]] is the lookup of the first entry for [k].
    - The outside world (disk, S3, Textract, CUPS, clock, network) is an
      environment [Env] of oracles telling whether each call raises, which
      paths are directories and how [pandas.read_excel] re-types the rows
      of a sheet; the effects the program performs are recorded, newest
      first, in the [events] of the [World].  One oracle stands for the
      Textract call followed by [get_kv_map], and answers with the
      flattened key/value mapping or with the exception either of them
      raises.
    - Documents, spreadsheets and the queue file live in separate stores
      of the [World]; an environment is a snapshot, so the same call gets
      the same answer throughout one handler run or one retry tick. *)

From Stdlib Require Import List String Ascii Bool Arith Lia.
Import ListNotations.
Local Open Scope list_scope.
Local Open Scope string_scope.

Set Implicit Arguments.

(** ** Python string primitives *)

Module Py.

(** [c.lower()] for one ASCII character. *)
Definition lower_ascii (c : ascii) : ascii :=
  let n := nat_of_ascii c in
  if Nat.leb 65 n && Nat.leb n 90 then ascii_of_nat (n + 32) else c.

(** [s.lower()] *)
Fixpoint lower (s : string) : string :=
  match s with
  | EmptyString => EmptyString
  | String c s' => String (lower_ascii c) (lower s')
  end.

(** [needle in hay] for strings: substring containment. *)
Fixpoint contains (needle hay : string) : bool :=
  prefix needle hay
  || match hay with
     | EmptyString => false
     | String _ hay' => contains needle hay'
     end.

(** [s.startswith(p)] and [s.endswith(p)] *)
Definition startswith (s p : string) : bool := prefix p s.

Fixpoint endswith (s p : string) : bool :=
  String.eqb s p
  || match s with
     | EmptyString => false
     | String _ s' => endswith s' p
     end.

(** [bool(s)] for a string, and for a value that may be [None]. *)
Definition truthy (s : string) : bool := negb (String.eqb s "").

Definition truthy_opt (o : option string) : bool :=
  match o with
  | Some s => truthy s
  | None => false
  end.

(** [s.split(sep)] for a non-empty separator: the pieces between the
    leftmost, non-overlapping occurrences of [sep].  [skip] counts the
    characters of an occurrence still to be stepped over, [cur] is the
    piece being collected. *)
Fixpoint split_from (sep : string) (skip : nat) (cur s : string)
  : list string :=
  match s with
  | EmptyString => [cur]
  | String c s' =>
      match skip with
      | S k => split_from sep k cur s'
      | O =>
          if prefix sep s
          then cur :: split_from sep (String.length sep - 1) "" s'
          else split_from sep 0 (cur ++ String c "") s'
      end
  end.

Definition split (s sep : string) : list string := split_from sep 0 "" s.

(** [s.split(sep)[0]]; [split] never returns the empty list. *)
Definition split_head (s sep : string) : string := hd "" (split s sep).

(** [os.path.basename(p)] (posixpath): what follows the last slash. *)
Fixpoint basename_from (cur s : string) : string :=
  match s with
  | EmptyString => cur
  | String c s' =>
      if Ascii.eqb c "/" then basename_from "" s'
      else basename_from (cur ++ String c "") s'
  end.

Definition basename (p : string) : string := basename_from "" p.

(** [os.path.dirname(p)] (posixpath): the head up to the last slash,
    with trailing slashes removed unless the head is slashes only. *)
Fixpoint head_from (acc cur s : string) : string :=
  match s with
  | EmptyString => acc
  | String c s' =>
      if Ascii.eqb c "/" then head_from (acc ++ cur ++ "/") "" s'
      else head_from acc (cur ++ String c "") s'
  end.

Fixpoint all_slashes (s : string) : bool :=
  match s with
  | EmptyString => true
  | String c s' => Ascii.eqb c "/" && all_slashes s'
  end.

Fixpoint rstrip_slash (s : string) : string :=
  match s with
  | EmptyString => EmptyString
  | String c s' =>
      if all_slashes s then EmptyString else String c (rstrip_slash s')
  end.

Definition dirname (p : string) : string :=
  let head := head_from "" "" p in
  if truthy head && negb (all_slashes head) then rstrip_slash head
  else head.

(** [os.path.join(a, b)] (posixpath, two components) *)
Definition join (a b : string) : string :=
  if startswith b "/" then b
  else if negb (truthy a) || endswith a "/" then a ++ b
  else a ++ "/" ++ b.

(** [any(values)] over strings *)
Definition any (vs : list string) : bool := existsb truthy vs.

End Py.

(** ** Dictionaries with string keys, in insertion order *)

Definition dict (V : Type) := list (string * V).

Definition keys {V} (d : dict V) : list string := map fst d.
Definition values {V} (d : dict V) : list V := map snd d.

(** [d[k]]: [None] stands for [KeyError]. *)
Fixpoint getitem {V} (d : dict V) (k : string) : option V :=
  match d with
  | [] => None
  | (k', v) :: d' => if String.eqb k' k then Some v else getitem d' k
  end.

(** [d[k] = v]: an existing key keeps its place. *)
Fixpoint setitem {V} (d : dict V) (k : string) (v : V) : dict V :=
  match d with
  | [] => [(k, v)]
  | (k', v') :: d' =>
      if String.eqb k' k then (k', v) :: d' else (k', v') :: setitem d' k v
  end.

(** ** Field normaliser *)

(** The inner loop of [match_key]: does some [p] of [possibilities]
    satisfy [p.lower() in key.lower()]? *)
Fixpoint any_possibility (possibilities : list string) (key : string) : bool :=
  match possibilities with
  | [] => false
  | p :: ps =>
      if Py.contains (Py.lower p) (Py.lower key) then true
      else any_possibility ps key
  end.

(** The outer loop of [match_key], over the keys still to visit; [kvs]
    stays the whole mapping, for the final [kvs[key]].  The key comes from
    [kvs], so the lookup cannot miss (lemma [getitem_of_key]). *)
Fixpoint match_key_loop (kvs : dict string) (possibilities : list string)
    (ks : list string) : string :=
  match ks with
  | [] => ""
  | key :: ks' =>
      if any_possibility possibilities key
      then match getitem kvs key with Some v => v | None => "" end
      else match_key_loop kvs possibilities ks'
  end.

Definition match_key (kvs : dict string) (possibilities : list string)
  : string :=
  match_key_loop kvs possibilities (keys kvs).

(** The canonical schema with the label synonyms of each field, in the
    order of the dictionary literal of [extract_invoice_fields]. *)
Definition field_table : list (string * list string) :=
  [ ("Invoice Number", ["Invoice No"; "Invoice Number"]);
    ("Invoice Date", ["Dated"; "Invoice Date"; "Date"]);
    ("GSTIN", ["GSTIN"]);
    ("Buyer Name", ["Buyer"; "BILLED TO"; "Bill to"; "Buyer (Bill to)";
                    "Party"; "Customer"; "Consignee"]);
    ("Buyer Contact", ["Mobile"; "Contact"]);
    ("Total Amount", ["Total"; "Total Amount"; "GrandTotal";
                      "Invoice Total"; "Amount Payable"]);
    ("HSN Code", ["HSN"; "HSN/SAC"]);
    ("CGST", ["CGST"]);
    ("SGST", ["SGST"]);
    ("Bank Name", ["Bank Name"]);
    ("Account Number", ["Account No"; "A/c No"]);
    ("IFSC Code", ["IFSC"; "IFSC Code"]);
    ("QUANTITY", ["Quantity"; "Qty"]);
    ("DESCRIPTION", ["Description of Goods"; "Description"]) ].

Definition extract_invoice_fields (kvs : dict string) : dict string :=
  [ ("Invoice Number", match_key kvs ["Invoice No"; "Invoice Number"]);
    ("Invoice Date", match_key kvs ["Dated"; "Invoice Date"; "Date"]);
    ("GSTIN", match_key kvs ["GSTIN"]);
    ("Buyer Name", match_key kvs ["Buyer"; "BILLED TO"; "Bill to";
                                  "Buyer (Bill to)"; "Party"; "Customer";
                                  "Consignee"]);
    ("Buyer Contact", match_key kvs ["Mobile"; "Contact"]);
    ("Total Amount", match_key kvs ["Total"; "Total Amount"; "GrandTotal";
                                    "Invoice Total"; "Amount Payable"]);
    ("HSN Code", match_key kvs ["HSN"; "HSN/SAC"]);
    ("CGST", match_key kvs ["CGST"]);
    ("SGST", match_key kvs ["SGST"]);
    ("Bank Name", match_key kvs ["Bank Name"]);
    ("Account Number", match_key kvs ["Account No"; "A/c No"]);
    ("IFSC Code", match_key kvs ["IFSC"; "IFSC Code"]);
    ("QUANTITY", match_key kvs ["Quantity"; "Qty"]);
    ("DESCRIPTION", match_key kvs ["Description of Goods"; "Description"]) ].

(** The fixed key set of an [ExtractedFields] record. *)
Definition canonical_keys : list string :=
  [ "Invoice Number"; "Invoice Date"; "GSTIN"; "Buyer Name"; "Buyer Contact";
    "Total Amount"; "HSN Code"; "CGST"; "SGST"; "Bank Name"; "Account Number";
    "IFSC Code"; "QUANTITY"; "DESCRIPTION" ].

(** ** Exceptions, results and the state-and-error monad *)

(** The exception classes the pipeline can meet; all derive from
    [Exception], so a bare [except Exception] catches each of them. *)
Inductive Exn : Type :=
| OSError (msg : string)
| NoCredentialsError (msg : string)
| ClientError (msg : string)
| JSONDecodeError (msg : string)
| UnboundLocalError (var : string)
| PlainException (msg : string).

(** [str(e)] *)
Definition exn_str (e : Exn) : string :=
  match e with
  | OSError m | NoCredentialsError m | ClientError m
  | JSONDecodeError m | PlainException m => m
  | UnboundLocalError v =>
      "local variable '" ++ v ++ "' referenced before assignment"
  end.

Inductive Result (A : Type) : Type :=
| Ret (a : A)
| Raise (e : Exn).
Arguments Ret {A} a.
Arguments Raise {A} e.

(** A computation over a state [S] that returns or raises. *)
Definition M (S A : Type) : Type := S -> Result A * S.

Definition ret {S A} (a : A) : M S A := fun s => (Ret a, s).

Definition raise {S A} (e : Exn) : M S A := fun s => (Raise e, s).

Definition bind {S A B} (m : M S A) (k : A -> M S B) : M S B :=
  fun s =>
    match m s with
    | (Ret a, s') => k a s'
    | (Raise e, s') => (Raise e, s')
    end.

(** [try: m  except Exception as e: h e] *)
Definition try_except {S A} (m : M S A) (h : Exn -> M S A) : M S A :=
  fun s =>
    match m s with
    | (Ret a, s') => (Ret a, s')
    | (Raise e, s') => h e s'
    end.

Notation "x <- m ;; k" := (bind m (fun x => k))
  (at level 61, m at next level, right associativity).
Notation "m ;; k" := (bind m (fun _ => k))
  (at level 61, right associativity).

(** ** The world the program acts on *)

Inductive Level : Type := INFO | WARNING | ERROR.

(** A [PendingRetryItem] as stored in [failed_uploads.json].
    [created_time] is what [item.get('created_time')] gives: [None] when
    the key is missing or null. *)
Record Item : Type := { path : string; created_time : option string }.

(** What the program does to the outside world.  A call to a collaborator
    that can raise ([MakeDirs], [Moved], [Chmod], [Lp], [S3Upload],
    [Textract], [ToExcel]) is recorded when it returns without raising;
    [SaveToExcel] records that [save_to_excel] was entered with a record,
    [QueueRead] that the queue file was opened. *)
Inductive Event : Type :=
| Log (lvl : Level) (msg : string)
| Printed (line : string)
| MakeDirs (dir : string)
| Moved (src dst : string)
| Chmod (file : string) (mode : nat)
| Lp (printer file : string)
| S3Upload (file bucket key : string)
| Textract (bucket key : string)
| SaveToExcel (data : dict string) (file : string)
| ToExcel (file : string) (rows : list (dict string))
| QueueRead
| QueueWritten (items : list Item).

(** Content of [FAILED_UPLOADS_PATH] when the file exists: either what
    [save_failed_uploads] wrote, or something [json.load] rejects. *)
Inductive QueueFile : Type :=
| Corrupt
| Persisted (items : list Item).

Record World : Type := {
  files : list string;                   (* document files present on disk *)
  queue_file : option QueueFile;         (* [None]: no queue file yet *)
  sheets : dict (list (dict string));    (* spreadsheets, by path *)
  events : list Event                    (* calls made, newest first *)
}.

(** The collaborators, as seen during one handler run or one retry tick.
    An oracle answers [Some e] when the call raises [e]. *)
Record Env : Type := {
  connected : bool;            (* [socket.create_connection] succeeds *)
  now_stamp : string;          (* [datetime.now()] as %Y-%m-%d_%H-%M-%S *)
  now_folder : string;         (* [datetime.now()] as %Y/%m/%d *)
  today : string;              (* the global [TODAY] *)
  makedirs_raises : string -> option Exn;
  isdir : string -> bool;      (* [os.path.isdir]: an existing directory *)
  move_raises : string -> string -> option Exn;
  chmod_raises : string -> option Exn;
  lp_raises : string -> string -> option Exn;
  s3_upload_raises : string -> string -> string -> option Exn;
  (* [get_kv_map(extract_text_textract(bucket, key))] *)
  analyze : string -> string -> Result (dict string);
  read_excel_raises : string -> option Exn;
  (* the rows [pandas.read_excel] gives for a sheet that holds these rows:
     cells come back re-typed, a text of digits as a number *)
  read_back : string -> list (dict string) -> list (dict string);
  to_excel_raises : string -> option Exn
}.

(** A directory-watch event and the handler object. *)
Record FsEvent : Type := { is_directory : bool; src_path : string }.

Record PDFHandler : Type := {
  output_dir : string;
  physical_printer : option string
}.

(** The locals of [on_created] that its [except] clause reads; [None]
    while the name is not yet bound. *)
Record Frame : Type := {
  l_dest_path : option string;
  l_created_time : option string
}.

Definition AWS_BUCKET_NAME : string := "excelmybucket".

Definition emit (ev : Event) : M World unit :=
  fun w =>
    (Ret tt, {| files := files w; queue_file := queue_file w;
                sheets := sheets w; events := ev :: events w |}).

Definition log (lvl : Level) (msg : string) : M World unit :=
  emit (Log lvl msg).

(** Runs the call [ev] unless the oracle makes it raise. *)
Definition call (failure : option Exn) (ev : Event) : M World unit :=
  match failure with
  | Some e => raise e
  | None => emit ev
  end.

(** [os.path.exists(p)] for a document *)
Definition path_exists (p : string) : M World bool :=
  fun w => (Ret (existsb (String.eqb p) (files w)), w).

Definition remove_file (p : string) (fs : list string) : list string :=
  filter (fun q => negb (String.eqb p q)) fs.

Section Pipeline.

Variable env : Env.

(** *** Connectivity probe *)
Definition is_connected : M World bool := ret (connected env).

(** *** Disk and print calls *)
Definition makedirs (dir : string) : M World unit :=
  call (makedirs_raises env dir) (MakeDirs dir).

(** Where [shutil.move(src, dst)] puts the file ([real_dst]): at [dst],
    or, when [dst] is an existing directory, inside it under the base
    name of [src] (trailing slashes ignored). *)
Definition move_target (src dst : string) : string :=
  if isdir env dst then Py.join dst (Py.basename (Py.rstrip_slash src))
  else dst.

(** [os.path.exists(real_dst)], asked by [shutil.move] when [dst] is a
    directory: a document or a directory is in the way. *)
Definition move_blocked (src dst : string) : M World bool :=
  if isdir env dst then
    taken <- path_exists (move_target src dst) ;;
    ret (taken || isdir env (move_target src dst))
  else ret false.

(** [shutil.move(src, dst)] for a document [src]: raises when [dst] is a
    directory that already has an entry of that name; then [os.rename]
    fails when [src] is gone, and [move_raises] stands for its other
    failures (and those of the copy).  The [Moved] event records the
    arguments of the call. *)
Definition move (src dst : string) : M World unit :=
  blocked <- move_blocked src dst ;;
  if blocked then
    raise (OSError ("Destination path '" ++ move_target src dst
                    ++ "' already exists"))
  else
    present <- path_exists src ;;
    if present then
      call (move_raises env src dst) (Moved src dst) ;;
      fun w =>
        (Ret tt, {| files := move_target src dst :: remove_file src (files w);
                    queue_file := queue_file w; sheets := sheets w;
                    events := events w |})
    else raise (OSError ("No such file or directory: " ++ src)).

Definition chmod (file : string) (mode : nat) : M World unit :=
  call (chmod_raises env file) (Chmod file mode).

Definition lp (printer file : string) : M World unit :=
  call (lp_raises env printer file) (Lp printer file).

Definition s3_upload_file (file bucket key : string) : M World unit :=
  call (s3_upload_raises env file bucket key) (S3Upload file bucket key).

(** *** Textract *)
Definition extract_kvs (bucket key : string) : M World (dict string) :=
  match analyze env bucket key with
  | Ret kvs => emit (Textract bucket key) ;; ret kvs
  | Raise e => raise e
  end.

(** *** Record sink *)

(** [pd.read_excel(file)]: the stored rows as pandas types them on
    reading, not the rows as they were written. *)
Definition read_excel (file : string) : M World (list (dict string)) :=
  fun w =>
    match read_excel_raises env file, getitem (sheets w) file with
    | Some e, _ => (Raise e, w)
    | None, Some rows => (Ret (read_back env file rows), w)
    | None, None => (Raise (OSError ("No such file: " ++ file)), w)
    end.

Definition to_excel (rows : list (dict string)) (file : string)
  : M World unit :=
  call (to_excel_raises env file) (ToExcel file rows) ;;
  fun w =>
    (Ret tt, {| files := files w; queue_file := queue_file w;
                sheets := setitem (sheets w) file rows;
                events := events w |}).

Definition sheet_exists (file : string) : M World bool :=
  fun w =>
    (Ret (match getitem (sheets w) file with Some _ => true | None => false end),
     w).

Definition save_to_excel (data : dict string) (file : string)
  : M World unit :=
  emit (SaveToExcel data file) ;;
  try_except
    (makedirs (Py.dirname file) ;;
     let df_new := [data] in
     present <- sheet_exists file ;;
     df_combined <-
       (if present
        then df_existing <- read_excel file ;; ret (df_existing ++ df_new)%list
        else ret df_new) ;;
     to_excel df_combined file ;;
     log INFO ("✅ Excel updated: " ++ file) ;;
     try_except
       (let s3_key := "excel_logs/" ++ today env ++ "/" ++ Py.basename file in
        s3_upload_file file "exceldatastore" s3_key ;;
        log INFO ("✅ Excel uploaded to S3 as: " ++ s3_key))
       (fun e => log ERROR ("❌ Failed to upload Excel to S3: " ++ exn_str e)))
    (fun e => log ERROR ("🚨 Error saving Excel: " ++ exn_str e)).

(** *** Failure queue *)
Definition load_failed_uploads : M World (list Item) :=
  fun w =>
    match queue_file w with
    | Some content =>
        (emit QueueRead ;;
         match content with
         | Persisted items => ret items
         | Corrupt => raise (JSONDecodeError "Expecting value")
         end) w
    | None => (Ret [], w)
    end.

Definition save_failed_uploads (data : list Item) : M World unit :=
  emit (QueueWritten data) ;;
  fun w =>
    (Ret tt, {| files := files w; queue_file := Some (Persisted data);
                sheets := sheets w; events := events w |}).

(** *** Upload *)

(** The key computed by [upload_pdf_to_s3] before the upload call. *)
Definition s3_key_of (pdf_path : string) (created_time : option string)
  : string :=
  let filename := Py.basename pdf_path in
  let created_time :=
    match created_time with
    | Some t => if Py.truthy t then t else now_stamp env
    | None => now_stamp env
    end in
  let date_folder := Py.split_head created_time "_" in
  date_folder ++ "/" ++ created_time ++ "_" ++ filename.

Definition upload_pdf_to_s3 (pdf_path : string)
    (created_time : option string) : M World (option string) :=
  try_except
    (let s3_key := s3_key_of pdf_path created_time in
     s3_upload_file pdf_path AWS_BUCKET_NAME s3_key ;;
     log INFO ("✅ Uploaded to S3: " ++ s3_key) ;;
     ret (Some s3_key))
    (fun e =>
       match e with
       | NoCredentialsError _ =>
           log ERROR ("❌ AWS credentials not found: " ++ exn_str e) ;;
           ret None
       | _ =>
           log ERROR ("❌ Upload error: " ++ exn_str e) ;;
           ret None
       end).

Definition excel_dir : string := "/home/mobicloud/Excel_Files".

(** *** Retry pass *)

(** The body of the [try] inside the loop of [retry_failed_uploads]
    (extract, normalise, record). *)
Definition retry_extract_and_record (s3_key : string) : M World unit :=
  kvs <- extract_kvs AWS_BUCKET_NAME s3_key ;;
  let data := extract_invoice_fields kvs in
  if Py.any (values data) then
    makedirs excel_dir ;;
    let excel_file_path := Py.join excel_dir "invoices.xlsx" in
    save_to_excel data excel_file_path ;;
    log INFO "save extracted data to excel"
  else ret tt.

(** One iteration of the loop of [retry_failed_uploads]; returns the
    [still_failed] list as the iteration leaves it. *)
Definition retry_item (item : Item) (still_failed : list Item)
  : M World (list Item) :=
  let pdf_path := path item in
  let created_time := created_time item in
  present <- path_exists pdf_path ;;
  if present then
    s3_key <- upload_pdf_to_s3 pdf_path created_time ;;
    if Py.truthy_opt s3_key then
      try_except
        (retry_extract_and_record
           (match s3_key with Some k => k | None => "" end) ;;
         ret still_failed)
        (fun e =>
           log ERROR ("❌ Textract failed for retry " ++ pdf_path ++ ": "
                      ++ exn_str e) ;;
           ret (still_failed ++ [item])%list)
    else ret (still_failed ++ [item])%list
  else
    log WARNING ("❌ File not found for retry: " ++ pdf_path) ;;
    ret still_failed.

Fixpoint retry_loop (failed still_failed : list Item)
  : M World (list Item) :=
  match failed with
  | [] => ret still_failed
  | item :: rest =>
      still_failed' <- retry_item item still_failed ;;
      retry_loop rest still_failed'
  end.

Definition retry_failed_uploads : M World unit :=
  online <- is_connected ;;
  if negb online then ret tt
  else
    failed <- load_failed_uploads ;;
    still_failed <- retry_loop failed [] ;;
    save_failed_uploads still_failed.

(** *** The per-document handler *)

Definition lift {A} (m : M World A) : M (Frame * World) A :=
  fun s =>
    match m (snd s) with
    | (r, w') => (r, (fst s, w'))
    end.

Definition bind_dest_path (v : string) : M (Frame * World) unit :=
  fun s =>
    (Ret tt, ({| l_dest_path := Some v;
                 l_created_time := l_created_time (fst s) |}, snd s)).

Definition bind_created_time (v : string) : M (Frame * World) unit :=
  fun s =>
    (Ret tt, ({| l_dest_path := l_dest_path (fst s);
                 l_created_time := Some v |}, snd s)).

(** Reading a local: [UnboundLocalError] while it is not bound. *)
Definition read_local (name : string) (get : Frame -> option string)
  : M (Frame * World) string :=
  fun s =>
    match get (fst s) with
    | Some v => (Ret v, s)
    | None => (Raise (UnboundLocalError name), s)
    end.

Variable self : PDFHandler.

(** Lines 292-309 of [on_created]: the connectivity gate and the
    upload, extract, normalise, record sequence. *)
Definition on_created_pipeline (dest_path created_time : string)
  : M World unit :=
  online <- is_connected ;;
  if online then
    s3_key <- upload_pdf_to_s3 dest_path (Some created_time) ;;
    if Py.truthy_opt s3_key then
      kvs <- extract_kvs AWS_BUCKET_NAME
               (match s3_key with Some k => k | None => "" end) ;;
      let data := extract_invoice_fields kvs in
      if Py.any (values data) then
        makedirs excel_dir ;;
        let excel_file_path := Py.join excel_dir "invoices.xlsx" in
        save_to_excel data excel_file_path
      else
        log WARNING "⚠️ No valid data extracted."
    else raise (PlainException "Upload failed")
  else raise (PlainException "Offline").

(** The body of the [try] of [on_created].  [time.sleep(1)] and the
    unused local [timestamp] leave no trace in the model. *)
Definition on_created_try (event : FsEvent) : M (Frame * World) unit :=
  let raw_name := Py.basename (src_path event) in
  let clean_name := Py.split_head raw_name "__" in
  let filename := clean_name in
  lift (emit (Printed filename)) ;;
  let date_folder := now_folder env in
  let dated_output_dir := Py.join (output_dir self) date_folder in
  lift (makedirs dated_output_dir) ;;
  let dest_path := Py.join dated_output_dir filename in
  bind_dest_path dest_path ;;
  lift (move (src_path event) dest_path) ;;
  lift (chmod dest_path 420) ;;
  let created_time := now_stamp env in
  bind_created_time created_time ;;
  lift (log INFO ("Moved PDF to: " ++ dest_path)) ;;
  (if Py.truthy_opt (physical_printer self) then
     let printer :=
       match physical_printer self with Some p => p | None => "" end in
     lift (lp printer dest_path) ;;
     lift (log INFO ("Forwarded to printer: " ++ printer))
   else
     lift (log WARNING "No physical printer configured. Skipping forwarding.")) ;;
  lift (on_created_pipeline dest_path created_time).

(** The [except Exception as e] clause of [on_created]. *)
Definition on_created_except (e : Exn) : M (Frame * World) unit :=
  lift (log ERROR ("❌ Error processing PDF: " ++ exn_str e)) ;;
  failed_list <- lift load_failed_uploads ;;
  dest_path <- read_local "dest_path" l_dest_path ;;
  created_time <- read_local "created_time" l_created_time ;;
  let failed_list :=
    (failed_list
       ++ [ {| path := dest_path; created_time := Some created_time |} ])%list in
  lift (save_failed_uploads failed_list).

Definition on_created (event : FsEvent) : M World unit :=
  if negb (is_directory event) && Py.endswith (src_path event) ".pdf" then
    fun w =>
      match try_except (on_created_try event) on_created_except
              ({| l_dest_path := None; l_created_time := None |}, w) with
      | (r, (_, w')) => (r, w')
      end
  else ret tt.

End Pipeline.

(** ** Specification-side definitions *)

(** A key matches a synonym list when its lowercased text contains the
    lowercased text of some synonym. *)
Definition key_matches (possibilities : list string) (key : string) : bool :=
  existsb (fun p => Py.contains (Py.lower p) (Py.lower key)) possibilities.

(** The value of the first entry, in the mapping's own order, whose key
    matches; the empty string when no key does. *)
Definition first_match (kvs : dict string) (possibilities : list string)
  : string :=
  match find (fun kv => key_matches possibilities (fst kv)) kvs with
  | Some kv => snd kv
  | None => ""
  end.

(** Whether [os.path.exists] holds for the file of a queued item. *)
Definition file_present (w : World) (it : Item) : bool :=
  existsb (String.eqb (path it)) (files w).

Definition raises (o : option Exn) : bool :=
  match o with
  | Some _ => true
  | None => false
  end.

(** The items of the persisted queue; none while the file is absent. *)
Definition queue_items (w : World) : list Item :=
  match queue_file w with
  | Some (Persisted items) => items
  | _ => []
  end.

(** How the retry of one item goes, read off the collaborators: the
    upload fails; the extraction raises; the spreadsheet directory cannot
    be created although there is a record to write. *)
Definition upload_failed (env : Env) (it : Item) : bool :=
  raises (s3_upload_raises env (path it) AWS_BUCKET_NAME
            (s3_key_of env (path it) (created_time it))).

Definition extraction_failed (env : Env) (it : Item) : bool :=
  match analyze env AWS_BUCKET_NAME
          (s3_key_of env (path it) (created_time it)) with
  | Raise _ => true
  | Ret _ => false
  end.

Definition record_dir_failed (env : Env) (it : Item) : bool :=
  match analyze env AWS_BUCKET_NAME
          (s3_key_of env (path it) (created_time it)) with
  | Raise _ => false
  | Ret kvs =>
      Py.any (values (extract_invoice_fields kvs))
      && raises (makedirs_raises env excel_dir)
  end.

(** The retry of an item reaches the sink call. *)
Definition reaches_sink (env : Env) (it : Item) : bool :=
  negb (upload_failed env it)
  && match analyze env AWS_BUCKET_NAME
             (s3_key_of env (path it) (created_time it)) with
     | Raise _ => false
     | Ret kvs =>
         Py.any (values (extract_invoice_fields kvs))
         && negb (raises (makedirs_raises env excel_dir))
     end.

(** An item stays queued after a drain pass. *)
Definition still_failed_after (env : Env) (w : World) (it : Item) : bool :=
  file_present w it
  && (upload_failed env it || extraction_failed env it
      || record_dir_failed env it).


(** Kinds of calls, and readings of a trace. *)
Definition is_sink_call (e : Event) : bool :=
  match e with SaveToExcel _ _ => true | _ => false end.

Definition is_sheet_write (e : Event) : bool :=
  match e with ToExcel _ _ => true | _ => false end.

Definition is_queue_write (e : Event) : bool :=
  match e with QueueWritten _ => true | _ => false end.

Definition is_warning (e : Event) : bool :=
  match e with Log WARNING _ => true | _ => false end.

Definition sink_called (l : list Event) : bool := existsb is_sink_call l.
Definition sheet_written (l : list Event) : bool := existsb is_sheet_write l.
Definition queue_written (l : list Event) : bool := existsb is_queue_write l.
Definition warned (l : list Event) : bool := existsb is_warning l.

(** [grows P old l]: [l] is [old] with further elements put in front,
    none of which satisfies [P]. *)
Inductive grows {A : Type} (P : A -> bool) (old : list A) : list A -> Prop :=
| grows_same : grows P old old
| grows_more (x : A) (l : list A) :
    P x = false -> grows P old l -> grows P old (x :: l).

(** What makes the spreadsheet write of [save_to_excel] raise, if
    anything: creating the folder, reading the existing sheet, writing. *)
Definition sink_write_raises (env : Env) (w : World) (file : string)
  : option Exn :=
  match makedirs_raises env (Py.dirname file) with
  | Some e => Some e
  | None =>
      match getitem (sheets w) file, read_excel_raises env file with
      | Some _, Some e => Some e
      | _, _ => to_excel_raises env file
      end
  end.

(** What makes the copy of the spreadsheet to S3 raise, if anything. *)
Definition sink_mirror_raises (env : Env) (file : string) : option Exn :=
  s3_upload_raises env file "exceldatastore"
    ("excel_logs/" ++ today env ++ "/" ++ Py.basename file).

(** ** Scenarios *)

Definition no_failure1 : string -> option Exn := fun _ => None.
Definition no_failure2 : string -> string -> option Exn := fun _ _ => None.
Definition no_failure3 : string -> string -> string -> option Exn :=
  fun _ _ _ => None.

(** A day on which every collaborator works, but for the parts given. *)
Definition scenario (online : bool)
    (make_dirs : string -> option Exn)
    (upload : string -> string -> string -> option Exn)
    (analysis : string -> string -> Result (dict string))
    (write_sheet : string -> option Exn) : Env :=
  {| connected := online;
     now_stamp := "2024-05-01_10-00-00";
     now_folder := "2024/05/01";
     today := "2024-05-01";
     makedirs_raises := make_dirs;
     isdir := fun _ => false;
     move_raises := no_failure2;
     chmod_raises := no_failure1;
     lp_raises := no_failure2;
     s3_upload_raises := upload;
     analyze := analysis;
     read_excel_raises := no_failure1;
     read_back := fun _ rows => rows;
     to_excel_raises := write_sheet |}.

Definition invoice_kvs : string -> string -> Result (dict string) :=
  fun _ _ => Ret [("Invoice No", "INV-1")].

Definition blank_kvs : string -> string -> Result (dict string) :=
  fun _ _ => Ret [].

Definition permission_denied : Exn := OSError "Permission denied".

Definition env_ok : Env :=
  scenario true no_failure1 no_failure3 invoice_kvs no_failure1.

Definition env_offline : Env :=
  scenario false no_failure1 no_failure3 invoice_kvs no_failure1.

(** The spreadsheet cannot be written. *)
Definition env_sheet_locked : Env :=
  scenario true no_failure1 no_failure3 invoice_kvs
    (fun _ => Some permission_denied).

(** The spreadsheet is written but its copy to S3 fails. *)
Definition env_mirror_down : Env :=
  scenario true no_failure1
    (fun _ bucket _ =>
       if String.eqb bucket "exceldatastore"
       then Some (ClientError "AccessDenied") else None)
    invoice_kvs no_failure1.


(** The dated folder cannot be created. *)
Definition env_no_dated_dir : Env :=
  scenario true (fun _ => Some permission_denied)
    no_failure3 invoice_kvs no_failure1.

(** Textract answers with no key/value pair. *)
Definition env_blank : Env :=
  scenario true no_failure1 no_failure3 blank_kvs no_failure1.

(** Textract is unreachable. *)
Definition env_textract_down : Env :=
  scenario true no_failure1 no_failure3
    (fun _ _ => Raise (ClientError "ServiceUnavailable")) no_failure1.

(** The next day: same collaborators, another clock. *)
Definition env_next_day : Env :=
  {| connected := true;
     now_stamp := "2024-05-02_08-15-00";
     now_folder := "2024/05/02";
     today := "2024-05-02";
     makedirs_raises := no_failure1;
     isdir := fun _ => false;
     move_raises := no_failure2;
     chmod_raises := no_failure1;
     lp_raises := no_failure2;
     s3_upload_raises := no_failure3;
     analyze := invoice_kvs;
     read_excel_raises := no_failure1;
     read_back := fun _ rows => rows;
     to_excel_raises := no_failure1 |}.

(** The upload calls of a trace, oldest first. *)
Definition uploads_to (bucket : string) (l : list Event) : list string :=
  flat_map (fun e =>
              match e with
              | S3Upload _ b key => if String.eqb b bucket then [key] else []
              | _ => []
              end) (rev l).

(** Uploads of [b.pdf] fail. *)
Definition env_b_fails : Env :=
  scenario true no_failure1
    (fun file _ _ =>
       if String.eqb file "/home/u/PDF_Prints/2024/05/01/b.pdf"
       then Some (ClientError "RequestTimeout") else None)
    invoice_kvs no_failure1.

Definition handler0 : PDFHandler :=
  {| output_dir := "/home/u/PDF_Prints"; physical_printer := None |}.

Definition pdf_event : FsEvent :=
  {| is_directory := false;
     src_path := "/home/u/PDF_Prints/invoice__dup123.pdf" |}.

(** The spooler has just written the file; nothing is queued. *)
Definition world0 : World :=
  {| files := ["/home/u/PDF_Prints/invoice__dup123.pdf"];
     queue_file := None; sheets := []; events := [] |}.

(** A spooled file whose name starts with the separator: its clean name
    is empty, so the destination path is the dated folder itself. *)
Definition unnamed_event : FsEvent :=
  {| is_directory := false; src_path := "/home/u/PDF_Prints/__x.pdf" |}.

Definition world_unnamed : World :=
  {| files := ["/home/u/PDF_Prints/__x.pdf"];
     queue_file := None; sheets := []; events := [] |}.

(** An offline day on which the dated folder exists as a directory. *)
Definition env_dated_folder : Env :=
  {| connected := false;
     now_stamp := "2024-05-01_10-00-00";
     now_folder := "2024/05/01";
     today := "2024-05-01";
     makedirs_raises := no_failure1;
     isdir := fun p =>
       String.eqb (Py.rstrip_slash p) "/home/u/PDF_Prints/2024/05/01";
     move_raises := no_failure2;
     chmod_raises := no_failure1;
     lp_raises := no_failure2;
     s3_upload_raises := no_failure3;
     analyze := invoice_kvs;
     read_excel_raises := no_failure1;
     read_back := fun _ rows => rows;
     to_excel_raises := no_failure1 |}.

(** The file is gone by the time the handler runs. *)
Definition world_vanished : World :=
  {| files := []; queue_file := None; sheets := []; events := [] |}.

Definition item_invoice : Item :=
  {| path := "/home/u/PDF_Prints/2024/05/01/invoice";
     created_time := Some "2024-05-01_10-00-00" |}.

(** One relocated document waits in the queue. *)
Definition world_queued : World :=
  {| files := ["/home/u/PDF_Prints/2024/05/01/invoice"];
     queue_file := Some (Persisted [item_invoice]);
     sheets := []; events := [] |}.

Definition item_a : Item :=
  {| path := "/home/u/PDF_Prints/2024/05/01/a.pdf";
     created_time := Some "2024-05-01_09-00-00" |}.
Definition item_b : Item :=
  {| path := "/home/u/PDF_Prints/2024/05/01/b.pdf";
     created_time := Some "2024-05-01_09-30-00" |}.
Definition item_gone : Item :=
  {| path := "/home/u/PDF_Prints/2024/05/01/gone.pdf";
     created_time := Some "2024-05-01_09-45-00" |}.

(** Three queued documents, the last of which was deleted from disk. *)
Definition world_three : World :=
  {| files := ["/home/u/PDF_Prints/2024/05/01/a.pdf";
               "/home/u/PDF_Prints/2024/05/01/b.pdf"];
     queue_file := Some (Persisted [item_a; item_b; item_gone]);
     sheets := []; events := [] |}.

(** ** Further parts of the program *)

From Stdlib Require Import ZArith.

(** *** More string primitives *)

Module PyStr.

(** [c.upper()] for one ASCII character. *)
Definition upper_ascii (c : ascii) : ascii :=
  let n := nat_of_ascii c in
  if Nat.leb 97 n && Nat.leb n 122 then ascii_of_nat (n - 32) else c.

(** [s.upper()] *)
Fixpoint upper (s : string) : string :=
  match s with
  | EmptyString => EmptyString
  | String c s' => String (upper_ascii c) (upper s')
  end.

(** [c.isspace()] on ASCII: tab to carriage return, the four separators
    and the space. *)
Definition is_space (c : ascii) : bool :=
  let n := nat_of_ascii c in
  (Nat.leb 9 n && Nat.leb n 13) || (Nat.leb 28 n && Nat.leb n 32).

Fixpoint lstrip (s : string) : string :=
  match s with
  | EmptyString => EmptyString
  | String c s' => if is_space c then lstrip s' else s
  end.

Fixpoint all_space (s : string) : bool :=
  match s with
  | EmptyString => true
  | String c s' => is_space c && all_space s'
  end.

Fixpoint rstrip (s : string) : string :=
  match s with
  | EmptyString => EmptyString
  | String c s' => if all_space s then EmptyString else String c (rstrip s')
  end.

(** [s.strip()] *)
Definition strip (s : string) : string := rstrip (lstrip s).

(** [sep.join(l)] *)
Fixpoint join_with (sep : string) (l : list string) : string :=
  match l with
  | [] => EmptyString
  | [x] => x
  | x :: l' => x ++ sep ++ join_with sep l'
  end.

End PyStr.

(** *** Textract blocks and [get_kv_map] *)

(** A relationship of a block: [rel['Type']] and [rel['Ids']]. *)
Record Relationship : Type := { rel_type : string; rel_ids : list string }.

(** A block of [response['Blocks']].  ['Id'] and ['BlockType'] are always
    there; the other three keys may be missing. *)
Record Block : Type := {
  block_id : string;
  block_type : string;
  entity_types : option (list string);
  block_relationships : option (list Relationship);
  block_text : option string
}.

(** A result that may be a [KeyError] on a block id. *)
Inductive Lookup (A : Type) : Type :=
| Found (a : A)
| KeyError (key : string).
Arguments Found {A} a.
Arguments KeyError {A} key.

Definition lookup_bind {A B} (m : Lookup A) (k : A -> Lookup B) : Lookup B :=
  match m with
  | Found a => k a
  | KeyError key => KeyError key
  end.

(** [{b['Id']: b for b in blocks}] *)
Definition block_map_of (blocks : list Block) : dict Block :=
  fold_left (fun m b => setitem m (block_id b) b) blocks [].

(** [block_map[i]] *)
Definition lookup_block (block_map : dict Block) (i : string) : Lookup Block :=
  match getitem block_map i with
  | Some b => Found b
  | None => KeyError i
  end.

(** [[block_map[i]['Text'] for i in ids if 'Text' in block_map[i]]] *)
Fixpoint texts_of (block_map : dict Block) (ids : list string)
  : Lookup (list string) :=
  match ids with
  | [] => Found []
  | i :: ids' =>
      lookup_bind (lookup_block block_map i) (fun b =>
      lookup_bind (texts_of block_map ids') (fun rest =>
      Found (match block_text b with
             | Some t => t :: rest
             | None => rest
             end)))
  end.

(** The loop over [val_block['Relationships']]. *)
Fixpoint value_rels_loop (block_map : dict Block) (val_rels : list Relationship)
    (value : string) : Lookup string :=
  match val_rels with
  | [] => Found value
  | val_rel :: rest =>
      if String.eqb (rel_type val_rel) "CHILD" then
        lookup_bind (texts_of block_map (rel_ids val_rel)) (fun texts =>
        value_rels_loop block_map rest (PyStr.join_with " " texts))
      else value_rels_loop block_map rest value
  end.

(** The loop over the ids of a VALUE relationship. *)
Fixpoint value_ids_loop (block_map : dict Block) (ids : list string)
    (value : string) : Lookup string :=
  match ids with
  | [] => Found value
  | val_id :: rest =>
      lookup_bind (lookup_block block_map val_id) (fun val_block =>
      lookup_bind
        (match block_relationships val_block with
         | Some val_rels => value_rels_loop block_map val_rels value
         | None => Found value
         end) (fun value' =>
      value_ids_loop block_map rest value'))
  end.

(** The loop over the relationships of a KEY block, carrying [key] and
    [value]. *)
Fixpoint rels_loop (block_map : dict Block) (rels : list Relationship)
    (key value : string) : Lookup (string * string) :=
  match rels with
  | [] => Found (key, value)
  | rel :: rest =>
      if String.eqb (rel_type rel) "CHILD" then
        lookup_bind (texts_of block_map (rel_ids rel)) (fun texts =>
        rels_loop block_map rest (PyStr.join_with " " texts) value)
      else if String.eqb (rel_type rel) "VALUE" then
        lookup_bind (value_ids_loop block_map (rel_ids rel) value)
          (fun value' => rels_loop block_map rest key value')
      else rels_loop block_map rest key value
  end.

(** [b['BlockType'] == 'KEY_VALUE_SET' and 'KEY' in b.get('EntityTypes', [])] *)
Definition is_key_block (b : Block) : bool :=
  String.eqb (block_type b) "KEY_VALUE_SET"
  && match entity_types b with
     | Some types => existsb (String.eqb "KEY") types
     | None => false
     end.

(** The loop of [get_kv_map] over the blocks, carrying [kvs]. *)
Fixpoint blocks_loop (block_map : dict Block) (blocks : list Block)
    (kvs : dict string) : Lookup (dict string) :=
  match blocks with
  | [] => Found kvs
  | b :: rest =>
      if is_key_block b then
        lookup_bind
          (rels_loop block_map
             (match block_relationships b with Some rels => rels | None => [] end)
             "" "") (fun kv =>
        let (key, value) := kv in
        blocks_loop block_map rest
          (if Py.truthy key
           then setitem kvs (PyStr.strip key) (PyStr.strip value)
           else kvs))
      else blocks_loop block_map rest kvs
  end.

Definition get_kv_map (blocks : list Block) : Lookup (dict string) :=
  blocks_loop (block_map_of blocks) blocks [].

(** Every id named by a relationship of a block is the id of a block. *)
Definition no_dangling_id (blocks : list Block) : Prop :=
  forall b rels rel i,
    In b blocks ->
    block_relationships b = Some rels ->
    In rel rels ->
    In i (rel_ids rel) ->
    In i (map block_id blocks).

(** Ids that the block map knows, and relationships naming only such
    ids. *)
Definition known_ids (block_map : dict Block) (ids : list string) : Prop :=
  forall i, In i ids -> exists b, getitem block_map i = Some b.

Definition sound_rels (block_map : dict Block) (rels : list Relationship)
  : Prop :=
  forall rel, In rel rels -> known_ids block_map (rel_ids rel).

(** *** Printer discovery *)

(** A value of a CUPS attribute dictionary. *)
Inductive AttrVal : Type :=
| AInt (n : Z)
| AStr (s : string).

(** [attrs.get("printer-state") == 3] *)
Definition is_idle (attrs : dict AttrVal) : bool :=
  match getitem attrs "printer-state" with
  | Some (AInt n) => Z.eqb n 3
  | _ => false
  end.

(** [name != exclude_name and "PDF" not in name.upper()] *)
Definition eligible (exclude_name name : string) : bool :=
  negb (String.eqb name exclude_name)
  && negb (Py.contains "PDF" (PyStr.upper name)).

(** The first loop of [detect_physical_printer], over [printers.items()]. *)
Fixpoint detect_idle (exclude_name : string) (items : dict (dict AttrVal))
  : option string :=
  match items with
  | [] => None
  | (name, attrs) :: rest =>
      if eligible exclude_name name && is_idle attrs then Some name
      else detect_idle exclude_name rest
  end.

(** Its second loop, over the names. *)
Fixpoint detect_any (exclude_name : string) (names : list string)
  : option string :=
  match names with
  | [] => None
  | name :: rest =>
      if eligible exclude_name name then Some name
      else detect_any exclude_name rest
  end.

(** [detect_physical_printer(exclude_name)], given what
    [conn.getPrinters()] answered. *)
Definition detect_physical_printer (printers : dict (dict AttrVal))
    (exclude_name : string) : option string :=
  match detect_idle exclude_name printers with
  | Some name => Some name
  | None => detect_any exclude_name (keys printers)
  end.

(** *** Retention purge *)

(** What [delete_old_pdfs] asks of the disk: the triples [os.walk]
    yields, modification times, whether [os.remove] raises, and the clock.
    Times are seconds, taken as integers. *)
Record Disk : Type := {
  walk : string -> list (string * (list string * list string));
  getmtime : string -> Result Z;
  remove_raises : string -> option Exn;
  time_now : Z
}.

Section Purge.

Variable disk : Disk.

(** [os.path.getmtime(p)]: fails when the file is gone. *)
Definition getmtime_of (p : string) : M World Z :=
  present <- path_exists p ;;
  if present then
    match getmtime disk p with
    | Ret t => ret t
    | Raise e => raise e
    end
  else raise (OSError ("No such file or directory: " ++ p)).

(** [os.remove(p)] *)
Definition remove (p : string) : M World unit :=
  present <- path_exists p ;;
  if present then
    match remove_raises disk p with
    | Some e => raise e
    | None =>
        fun w =>
          (Ret tt, {| files := remove_file p (files w);
                      queue_file := queue_file w; sheets := sheets w;
                      events := events w |})
    end
  else raise (OSError ("No such file or directory: " ++ p)).

(** The body of the inner loop of [delete_old_pdfs] for one file name. *)
Definition purge_file (cutoff : Z) (root file : string) : M World unit :=
  if Py.endswith file ".pdf" then
    let file_path := Py.join root file in
    try_except
      (mtime <- getmtime_of file_path ;;
       if Z.ltb mtime cutoff then
         remove file_path ;;
         log INFO ("Deleted old PDF: " ++ file_path)
       else ret tt)
      (fun e =>
         log ERROR ("Error deleting file " ++ file_path ++ ": " ++ exn_str e))
  else ret tt.

Fixpoint purge_files (cutoff : Z) (root : string) (names : list string)
  : M World unit :=
  match names with
  | [] => ret tt
  | file :: rest => purge_file cutoff root file ;; purge_files cutoff root rest
  end.

Fixpoint purge_walk (cutoff : Z)
    (triples : list (string * (list string * list string))) : M World unit :=
  match triples with
  | [] => ret tt
  | (root, (_, names)) :: rest =>
      purge_files cutoff root names ;; purge_walk cutoff rest
  end.

(** [PDFHandler.delete_old_pdfs]; [retention_days] is the attribute of the
    handler the record [PDFHandler] leaves out. *)
Definition delete_old_pdfs (self : PDFHandler) (retention_days : Z)
  : M World unit :=
  let cutoff := (time_now disk - retention_days * 86400)%Z in
  purge_walk cutoff (walk disk (output_dir self)).

End Purge.

(** *** Specification-side definitions for the further parts *)

(** The text of [s] before the first occurrence of [sep]; all of [s]
    when [sep] does not occur. *)
Fixpoint before (sep s : string) : string :=
  match s with
  | EmptyString => EmptyString
  | String c s' => if prefix sep s then EmptyString else String c (before sep s')
  end.

(** The synonym lists with every label dropped that contains another label
    of its list. *)
Definition effective_table : list (string * list string) :=
  [ ("Invoice Number", ["Invoice No"; "Invoice Number"]);
    ("Invoice Date", ["Date"]);
    ("GSTIN", ["GSTIN"]);
    ("Buyer Name", ["Buyer"; "BILLED TO"; "Bill to"; "Party"; "Customer";
                    "Consignee"]);
    ("Buyer Contact", ["Mobile"; "Contact"]);
    ("Total Amount", ["Total"; "Amount Payable"]);
    ("HSN Code", ["HSN"]);
    ("CGST", ["CGST"]);
    ("SGST", ["SGST"]);
    ("Bank Name", ["Bank Name"]);
    ("Account Number", ["Account No"; "A/c No"]);
    ("IFSC Code", ["IFSC"]);
    ("QUANTITY", ["Quantity"; "Qty"]);
    ("DESCRIPTION", ["Description"]) ].

(** The item [on_created] queues for a document. *)
Definition dest_path_of (env : Env) (self : PDFHandler) (event : FsEvent)
  : string :=
  Py.join (Py.join (output_dir self) (now_folder env))
    (Py.split_head (Py.basename (src_path event)) "__").

Definition item_of (env : Env) (self : PDFHandler) (event : FsEvent) : Item :=
  {| path := dest_path_of env self event;
     created_time := Some (now_stamp env) |}.

(** Forwarding to the physical printer raises. *)
Definition forward_failed (env : Env) (self : PDFHandler) (event : FsEvent)
  : bool :=
  match physical_printer self with
  | Some printer =>
      Py.truthy printer
      && raises (lp_raises env printer (dest_path_of env self event))
  | None => false
  end.

(** The document does not get through the steps after relocation. *)
Definition processing_failed (env : Env) (self : PDFHandler) (event : FsEvent)
  : bool :=
  forward_failed env self event
  || negb (connected env)
  || upload_failed env (item_of env self event)
  || extraction_failed env (item_of env self event)
  || record_dir_failed env (item_of env self event).

(** [shutil.move] refuses to move the document: the destination is a
    directory in which the name of the document is taken. *)
Definition move_refused (env : Env) (w : World) (src dst : string) : bool :=
  isdir env dst
  && (existsb (String.eqb (move_target env src dst)) (files w)
      || isdir env (move_target env src dst)).

(** The handler gets the upload of its document through. *)
Definition first_upload_made (env : Env) (self : PDFHandler) (event : FsEvent)
  : bool :=
  negb (forward_failed env self event)
  && connected env
  && negb (upload_failed env (item_of env self event)).

(** The retry of a queued item gets its upload through. *)
Definition retry_upload_made (env : Env) (w : World) (it : Item) : bool :=
  file_present w it && negb (upload_failed env it).

(** [{datePrefix}/{created_time}_{basename(path)}] for a queued item, the
    date prefix being what precedes the first underscore of its
    timestamp. *)
Definition stored_key (it : Item) : string :=
  match created_time it with
  | Some t => Py.split_head t "_" ++ "/" ++ t ++ "_" ++ Py.basename (path it)
  | None => ""
  end.

(** The key of an upload call into [bucket]. *)
Definition upload_key (bucket : string) (e : Event) : list string :=
  match e with
  | S3Upload _ b key => if String.eqb b bucket then [key] else []
  | _ => []
  end.

Definition raised {A} (r : Result A) : bool :=
  match r with
  | Raise _ => true
  | Ret _ => false
  end.

(** Calls that leave the machine or write the spreadsheet. *)
Definition is_remote_call (e : Event) : bool :=
  match e with
  | S3Upload _ _ _ | Textract _ _ | SaveToExcel _ _ | ToExcel _ _ => true
  | _ => false
  end.

(** [delete_old_pdfs] would remove the file at [p]: a path ending in
    [.pdf], older than the cutoff, whose removal does not raise. *)
Definition purgeable (disk : Disk) (cutoff : Z) (p : string) : Prop :=
  Py.endswith p ".pdf" = true
  /\ exists mtime,
       getmtime disk p = Ret mtime
       /\ (mtime < cutoff)%Z
       /\ remove_raises disk p = None.

(** [os.walk] lists the file at [p] under the handler's output folder. *)
Definition listed (disk : Disk) (self : PDFHandler) (p : string) : Prop :=
  exists root dirs names file,
    In (root, (dirs, names)) (walk disk (output_dir self))
    /\ In file names
    /\ p = Py.join root file.

(** The rows [pandas.read_excel] gives for a spreadsheet; none while it
    does not exist. *)
Definition rows_read (env : Env) (w : World) (file : string)
  : list (dict string) :=
  match getitem (sheets w) file with
  | Some rows => read_back env file rows
  | None => []
  end.

(** *** Scenarios for the further parts *)

(** A Textract answer: one KEY block "Invoice No " with the value
    " INV-1", and the WORD blocks they point to. *)
Definition invoice_blocks : list Block :=
  [ {| block_id := "k1"; block_type := "KEY_VALUE_SET";
       entity_types := Some ["KEY"];
       block_relationships :=
         Some [ {| rel_type := "VALUE"; rel_ids := ["v1"] |};
                {| rel_type := "CHILD"; rel_ids := ["w1"; "w2"] |} ];
       block_text := None |};
    {| block_id := "v1"; block_type := "KEY_VALUE_SET";
       entity_types := Some ["VALUE"];
       block_relationships :=
         Some [ {| rel_type := "CHILD"; rel_ids := ["w3"] |} ];
       block_text := None |};
    {| block_id := "w1"; block_type := "WORD"; entity_types := None;
       block_relationships := None; block_text := Some "Invoice" |};
    {| block_id := "w2"; block_type := "WORD"; entity_types := None;
       block_relationships := None; block_text := Some "No " |};
    {| block_id := "w3"; block_type := "WORD"; entity_types := None;
       block_relationships := None; block_text := Some " INV-1" |} ].

(** A page of plain text: a LINE and its WORD. *)
Definition text_blocks : list Block :=
  [ {| block_id := "l1"; block_type := "LINE"; entity_types := None;
       block_relationships :=
         Some [ {| rel_type := "CHILD"; rel_ids := ["w1"] |} ];
       block_text := Some "Hello" |};
    {| block_id := "w1"; block_type := "WORD"; entity_types := None;
       block_relationships := None; block_text := Some "Hello" |} ].

(** What CUPS lists: the virtual printer, a PDF printer, a busy laser
    printer and an idle inkjet. *)
Definition cups_printers : dict (dict AttrVal) :=
  [ ("zxcv", [("printer-state", AInt 3)]);
    ("Cups-Pdf", [("printer-state", AInt 3)]);
    ("Laser", [("printer-state", AInt 4); ("printer-info", AStr "HP")]);
    ("Inkjet", [("printer-state", AInt 3)]) ].

(** A disk with an old and a recent PDF and an old file without
    extension under the output folder; the clock is at day 10. *)
Definition disk0 : Disk :=
  {| walk := fun top =>
       [ (top, (["2024"], []));
         (top ++ "/2024", ([], ["old.pdf"; "new.pdf"; "invoice"])) ];
     getmtime := fun p =>
       Ret (if String.eqb p "/home/u/PDF_Prints/2024/new.pdf"
            then 800000%Z else 1000%Z);
     remove_raises := no_failure1;
     time_now := 864000%Z |}.

Definition world_disk : World :=
  {| files := ["/home/u/PDF_Prints/2024/old.pdf";
               "/home/u/PDF_Prints/2024/new.pdf";
               "/home/u/PDF_Prints/2024/invoice"];
     queue_file := None; sheets := []; events := [] |}.

(** The spreadsheet holds one row whose invoice number was written as
    the text [00123]; pandas reads it back as the number 123. *)
Definition world_sheet : World :=
  {| files := []; queue_file := None;
     sheets := [("/home/mobicloud/Excel_Files/invoices.xlsx",
                 [[("Invoice Number", "00123")]])];
     events := [] |}.

Definition env_retypes : Env :=
  {| connected := true;
     now_stamp := "2024-05-01_10-00-00";
     now_folder := "2024/05/01";
     today := "2024-05-01";
     makedirs_raises := no_failure1;
     isdir := fun _ => false;
     move_raises := no_failure2;
     chmod_raises := no_failure1;
     lp_raises := no_failure2;
     s3_upload_raises := no_failure3;
     analyze := invoice_kvs;
     read_excel_raises := no_failure1;
     read_back := fun _ rows =>
       map (map (fun kv : string * string =>
                   (fst kv,
                    if String.eqb (snd kv) "00123" then "123" else snd kv)))
         rows;
     to_excel_raises := no_failure1 |}.

(** The queue file was cut short while being written. *)
Definition world_corrupt : World :=
  {| files := ["/home/u/PDF_Prints/invoice__dup123.pdf"];
     queue_file := Some Corrupt; sheets := []; events := [] |}.

(** * Properties *)

(** ** Strings *)

Lemma prefix_app (n h : string) :
  prefix n h = true <-> exists b, h = n ++ b.
Proof.
  revert h; induction n as [|c n IH]; intros h; simpl.
  - split; [intros _; exists h; reflexivity | intros _; destruct h; reflexivity].
  - destruct h as [|d h]; simpl.
    + split; [discriminate | intros [b Hb]; discriminate].
    + destruct (ascii_dec c d) as [Hcd|Hcd].
      * subst d. rewrite IH. split; intros [b Hb]; exists b; congruence.
      * split; [discriminate | intros [b Hb]; congruence].
Qed.

Lemma contains_nil (n : string) : Py.contains n "" = prefix n "".
Proof. unfold Py.contains. apply orb_false_r. Qed.

Lemma contains_cons (n : string) (c : ascii) (h : string) :
  Py.contains n (String c h) = prefix n (String c h) || Py.contains n h.
Proof. reflexivity. Qed.

Lemma contains_substring (n h : string) :
  Py.contains n h = true <-> exists a b, h = a ++ n ++ b.
Proof.
  split.
  - induction h as [|c h IH]; intros H.
    + rewrite contains_nil in H. apply prefix_app in H as [b Hb].
      exists "", b. exact Hb.
    + rewrite contains_cons in H. apply orb_true_iff in H as [H|H].
      * apply prefix_app in H as [b Hb]. exists "", b. exact Hb.
      * destruct (IH H) as (a & b & ->). exists (String c a), b. reflexivity.
  - intros (a & b & ->). induction a as [|c a IH].
    + assert (Hp : prefix n (n ++ b) = true) by (apply prefix_app; eauto).
      change ("" ++ n ++ b) with (n ++ b).
      destruct (n ++ b).
      * rewrite contains_nil. exact Hp.
      * rewrite contains_cons, Hp. reflexivity.
    + change (String c a ++ n ++ b) with (String c (a ++ n ++ b)).
      rewrite contains_cons, IH. apply orb_true_r.
Qed.

Lemma split_from_nonempty (sep : string) (s : string) :
  forall skip cur, Py.split_from sep skip cur s <> [].
Proof.
  induction s as [|c s IH]; intros skip cur; cbn [Py.split_from];
    [discriminate|].
  destruct skip; [|apply IH].
  destruct (prefix sep (String c s)); [discriminate | apply IH].
Qed.

Lemma truthy_slash (a b : string) : Py.truthy (a ++ "/" ++ b) = true.
Proof. destruct a; reflexivity. Qed.

(** ** Field normaliser *)

Lemma any_possibility_existsb (ps : list string) (k : string) :
  any_possibility ps k = key_matches ps k.
Proof.
  unfold key_matches. induction ps as [|p ps IH]; simpl; [reflexivity|].
  destruct (Py.contains (Py.lower p) (Py.lower k)); simpl; auto.
Qed.

Lemma getitem_of_key {V} (d : dict V) (k : string) :
  In k (keys d) -> getitem d k <> None.
Proof.
  induction d as [|[k' v] d IH]; simpl; [tauto|].
  intros [->|Hin].
  - rewrite String.eqb_refl. discriminate.
  - destruct (String.eqb k' k); [discriminate | auto].
Qed.

Lemma getitem_skip {V} (pre tl : dict V) (k : string) (v : V) :
  (forall kv, In kv pre -> fst kv <> k) ->
  getitem (pre ++ (k, v) :: tl)%list k = Some v.
Proof.
  induction pre as [|[k' v'] pre IH]; simpl; intros Hpre.
  - rewrite String.eqb_refl. reflexivity.
  - destruct (String.eqb_spec k' k) as [->|_].
    + exfalso. apply (Hpre (k, v')); auto.
    + apply IH. intros kv Hin. apply Hpre. auto.
Qed.

Lemma match_key_loop_first_match (ps : list string) (pre tl : dict string) :
  (forall kv, In kv pre -> key_matches ps (fst kv) = false) ->
  match_key_loop (pre ++ tl)%list ps (keys tl) = first_match tl ps.
Proof.
  revert pre. unfold first_match.
  induction tl as [|[k v] tl IH]; intros pre Hpre; simpl; [reflexivity|].
  rewrite any_possibility_existsb.
  destruct (key_matches ps k) eqn:Hk.
  - rewrite getitem_skip; [reflexivity|].
    intros kv Hin Heq. rewrite <- Heq, (Hpre kv Hin) in Hk. discriminate.
  - specialize (IH (pre ++ [(k, v)])%list).
    rewrite <- app_assoc in IH. simpl in IH. apply IH.
    intros kv Hin. apply in_app_or in Hin as [Hin|[<-|[]]]; auto.
Qed.

Lemma match_key_first_match (kvs : dict string) (ps : list string) :
  match_key kvs ps = first_match kvs ps.
Proof.
  unfold match_key.
  apply (match_key_loop_first_match ps [] kvs). intros kv [].
Qed.

Lemma first_match_unmatched (kvs : dict string) (ps : list string) :
  existsb (key_matches ps) (keys kvs) = false -> first_match kvs ps = "".
Proof.
  unfold first_match, keys.
  induction kvs as [|[k v] kvs IH]; simpl; [reflexivity|].
  destruct (key_matches ps k); simpl; [discriminate | exact IH].
Qed.

Lemma append_assoc_s (a b c : string) : (a ++ b) ++ c = a ++ b ++ c.
Proof. induction a as [|x a IH]; simpl; [reflexivity | rewrite IH; reflexivity]. Qed.

Lemma contains_trans (a b c : string) :
  Py.contains a b = true -> Py.contains b c = true -> Py.contains a c = true.
Proof.
  rewrite !contains_substring. intros (x & y & ->) (u & v & ->).
  exists (u ++ x), (y ++ v). rewrite !append_assoc_s. reflexivity.
Qed.

Lemma match_key_singleton (k v p : string) (ps : list string) :
  Py.contains (Py.lower p) (Py.lower k) = true ->
  match_key [(k, v)] (p :: ps) = v.
Proof.
  intros H. rewrite match_key_first_match. unfold first_match. simpl.
  rewrite H. reflexivity.
Qed.

(** C10: [match_key] returns the value of the first key, in the mapping's
    own order, whose lowercased text contains the lowercased text of some
    synonym, and the empty string when no key does; containment is the
    substring relation, so a key containing "Subtotal" feeds Total Amount
    and a key containing "Updated" feeds Invoice Date; between two matching
    keys the mapping's order decides, not the order of the synonyms. *)
Theorem match_key_first_substring_match :
  (forall kvs ps, match_key kvs ps = first_match kvs ps)
  /\ (forall n h, Py.contains n h = true <-> exists a b, h = a ++ n ++ b)
  /\ (forall k v,
        Py.contains "subtotal" (Py.lower k) = true ->
        getitem (extract_invoice_fields [(k, v)]) "Total Amount" = Some v)
  /\ (forall k v,
        Py.contains "updated" (Py.lower k) = true ->
        getitem (extract_invoice_fields [(k, v)]) "Invoice Date" = Some v)
  /\ getitem (extract_invoice_fields [("Subtotal", "90")]) "Total Amount"
     = Some "90"
  /\ getitem (extract_invoice_fields [("Last Updated", "today")]) "Invoice Date"
     = Some "today"
  /\ match_key [("Invoice Date", "d1"); ("Dated", "d2")]
       ["Dated"; "Invoice Date"; "Date"] = "d1"
  /\ match_key [("Dated", "d2"); ("Invoice Date", "d1")]
       ["Dated"; "Invoice Date"; "Date"] = "d2".
Proof.
  split; [exact match_key_first_match|].
  split; [exact contains_substring|].
  split.
  { intros k v H. unfold extract_invoice_fields. cbn [getitem String.eqb Ascii.eqb Bool.eqb].
    rewrite (@match_key_singleton k v "Total"); [reflexivity|].
    apply (contains_trans "total" "subtotal"); [reflexivity | exact H]. }
  split.
  { intros k v H. unfold extract_invoice_fields. cbn [getitem String.eqb Ascii.eqb Bool.eqb].
    rewrite (@match_key_singleton k v "Dated"); [reflexivity|].
    apply (contains_trans "dated" "updated"); [reflexivity | exact H]. }
  repeat split; reflexivity.
Qed.

Lemma match_key_first_substring_match_witness :
  getitem (extract_invoice_fields [("Subtotal (INR)", "90")]) "Total Amount"
  = Some "90".
Proof.
  destruct match_key_first_substring_match as (_ & _ & H & _).
  apply H. reflexivity.
Defined.

(** C7: the normaliser is a function of the raw mapping alone; its result
    has exactly the fourteen canonical keys, in the fixed order and without
    repeats, each holding the match for its synonyms, which is the empty
    string when no raw key matches; equal mappings give equal records and
    the empty mapping gives a record whose fields are all empty. *)
Theorem extract_invoice_fields_schema (kvs : dict string) :
  keys (extract_invoice_fields kvs) = canonical_keys
  /\ NoDup canonical_keys
  /\ List.length canonical_keys = 14
  /\ extract_invoice_fields kvs
     = map (fun f => (fst f, first_match kvs (snd f))) field_table
  /\ (forall name ps,
        In (name, ps) field_table ->
        existsb (key_matches ps) (keys kvs) = false ->
        getitem (extract_invoice_fields kvs) name = Some "")
  /\ (forall kvs', kvs' = kvs ->
        extract_invoice_fields kvs' = extract_invoice_fields kvs)
  /\ Forall (fun v => v = "") (values (extract_invoice_fields []))
  /\ Py.any (values (extract_invoice_fields [])) = false.
Proof.
  assert (Htab : extract_invoice_fields kvs
                 = map (fun f => (fst f, first_match kvs (snd f))) field_table).
  { unfold extract_invoice_fields, field_table. simpl.
    rewrite !match_key_first_match. reflexivity. }
  split; [reflexivity|].
  split.
  { unfold canonical_keys.
    repeat (constructor; [simpl; intros H; repeat destruct H as [H|H];
                          discriminate || assumption|]).
    constructor. }
  split; [reflexivity|].
  split; [exact Htab|].
  split.
  { intros name ps Hin Hno. rewrite Htab.
    unfold field_table in *. simpl in Hin.
    repeat (destruct Hin as [Hin|Hin];
            [injection Hin as <- <-; simpl;
             rewrite (first_match_unmatched _ _ Hno); reflexivity|]).
    destruct Hin. }
  split; [intros kvs' ->; reflexivity|].
  split; [|reflexivity].
  repeat constructor.
Qed.

Lemma extract_invoice_fields_schema_witness :
  getitem (extract_invoice_fields [("Invoice No", "INV-1")]) "GSTIN" = Some "".
Proof.
  destruct (extract_invoice_fields_schema [("Invoice No", "INV-1")])
    as (_ & _ & _ & _ & H & _).
  apply (H "GSTIN" ["GSTIN"]).
  - simpl. tauto.
  - reflexivity.
Defined.

(** ** Storage keys *)

Lemma truthy_nonempty (t : string) : t <> "" -> Py.truthy t = true.
Proof. destruct t; [congruence | reflexivity]. Qed.

Lemma s3_key_of_stamped (env : Env) (p t : string) :
  t <> "" ->
  s3_key_of env p (Some t)
  = Py.split_head t "_" ++ "/" ++ t ++ "_" ++ Py.basename p.
Proof.
  intros Ht. unfold s3_key_of. rewrite (truthy_nonempty Ht). reflexivity.
Qed.

Lemma s3_key_of_truthy (env : Env) (p : string) (ct : option string) :
  Py.truthy (s3_key_of env p ct) = true.
Proof. unfold s3_key_of. apply truthy_slash. Qed.

(** The first attempt uploads the document and then fails at Textract,
    so the document is queued; the drain pass of the next day uploads it
    under the key of the first attempt. *)
Example retry_reuses_key_scenario :
  let first := snd (on_created env_textract_down handler0 pdf_event world0) in
  let second := snd (retry_failed_uploads env_next_day first) in
  queue_items first = [item_invoice]
  /\ uploads_to AWS_BUCKET_NAME (events first)
     = ["2024-05-01/2024-05-01_10-00-00_invoice"]
  /\ uploads_to AWS_BUCKET_NAME (events second)
     = ["2024-05-01/2024-05-01_10-00-00_invoice";
        "2024-05-01/2024-05-01_10-00-00_invoice"]
  /\ queue_items second = [].
Proof.
  cbv zeta.
  repeat match goal with
         | |- _ /\ _ => split
         | |- _ = _ => vm_compute; reflexivity
         end.
Qed.

(** ** Failure queue *)

(** C9: [load_failed_uploads] returns the empty list, without raising and
    without opening anything, when there is no queue file; when the file
    holds a persisted collection it returns that collection whole. *)
Theorem load_failed_uploads_total (w : World) :
  (queue_file w = None -> load_failed_uploads w = (Ret [], w))
  /\ (forall items,
        queue_file w = Some (Persisted items) ->
        fst (load_failed_uploads w) = Ret items
        /\ queue_file (snd (load_failed_uploads w)) = queue_file w).
Proof.
  unfold load_failed_uploads. split.
  - intros ->. reflexivity.
  - intros items H. rewrite H. cbn. auto.
Qed.

Lemma load_failed_uploads_total_witness :
  load_failed_uploads world0 = (Ret [], world0)
  /\ fst (load_failed_uploads world_queued) = Ret [item_invoice].
Proof.
  split.
  - apply (proj1 (load_failed_uploads_total world0)). reflexivity.
  - apply (proj2 (load_failed_uploads_total world_queued) [item_invoice]).
    reflexivity.
Defined.

(** ** Retry pass *)

(** C8: when the probe answers false the tick does nothing: the pass
    returns at once and leaves the world as it was, so the queue file is
    neither read nor written and no item is attempted. *)
Theorem offline_tick_is_skipped (env : Env) (w : World) :
  connected env = false ->
  retry_failed_uploads env w = (Ret tt, w).
Proof.
  intros H. unfold retry_failed_uploads, bind, is_connected, ret.
  rewrite H. reflexivity.
Qed.

Lemma offline_tick_is_skipped_witness :
  retry_failed_uploads env_offline world_queued = (Ret tt, world_queued).
Proof. apply offline_tick_is_skipped. reflexivity. Defined.

(** ** The handler on concrete documents *)

(** C2: the handler lets an exception out when relocation fails.  With the
    file gone before [shutil.move], or the dated folder not creatable, the
    [except] clause itself raises [UnboundLocalError], because it reads
    [created_time] (and [dest_path]) that the [try] never bound. *)
Theorem relocate_failure_escapes_handler :
  fst (on_created env_ok handler0 pdf_event world_vanished)
  = Raise (UnboundLocalError "created_time")
  /\ fst (on_created env_no_dated_dir handler0 pdf_event world0)
     = Raise (UnboundLocalError "dest_path")
  /\ queue_written
       (events (snd (on_created env_ok handler0 pdf_event world_vanished)))
     = false.
Proof.
  repeat match goal with
         | |- _ /\ _ => split
         | |- _ = _ => vm_compute; reflexivity
         end.
Qed.

(** C3: the file detected as [invoice__dup123.pdf] is moved to
    [.../2024/05/01/invoice]: the split at the double underscore removes
    the extension together with the spooler's suffix. *)
Theorem relocate_drops_extension :
  Py.split_head (Py.basename (src_path pdf_event)) "__" = "invoice"
  /\ files (snd (on_created env_ok handler0 pdf_event world0))
     = ["/home/u/PDF_Prints/2024/05/01/invoice"]
  /\ In (Moved "/home/u/PDF_Prints/invoice__dup123.pdf"
           "/home/u/PDF_Prints/2024/05/01/invoice")
        (events (snd (on_created env_ok handler0 pdf_event world0)))
  /\ Py.endswith "/home/u/PDF_Prints/2024/05/01/invoice" ".pdf" = false.
Proof.
  split; [reflexivity|]. split; [reflexivity|]. split; [|reflexivity].
  vm_compute. tauto.
Qed.

(** ** Names, keys and paths *)

Lemma append_nil_r_s (s : string) : s ++ "" = s.
Proof. induction s as [|c s IH]; simpl; [reflexivity | rewrite IH; reflexivity]. Qed.

Lemma split_from_before (sep s : string) :
  forall cur, hd "" (Py.split_from sep 0 cur s) = cur ++ before sep s.
Proof.
  induction s as [|c s IH]; intros cur; cbn [Py.split_from before].
  - simpl. rewrite append_nil_r_s. reflexivity.
  - destruct (prefix sep (String c s)).
    + simpl. rewrite append_nil_r_s. reflexivity.
    + rewrite IH, append_assoc_s. reflexivity.
Qed.

Lemma split_head_before (s sep : string) : Py.split_head s sep = before sep s.
Proof. unfold Py.split_head, Py.split. apply split_from_before. Qed.

Lemma before_prefix (sep s : string) : exists rest, s = before sep s ++ rest.
Proof.
  induction s as [|c s [rest IH]]; cbn [before].
  - exists "". reflexivity.
  - destruct (prefix sep (String c s)).
    + exists (String c s). reflexivity.
    + exists rest. simpl. rewrite <- IH. reflexivity.
Qed.

Lemma before_absent (sep s : string) :
  Py.contains sep s = false -> before sep s = s.
Proof.
  induction s as [|c s IH]; intros H; cbn [before]; [reflexivity|].
  rewrite contains_cons in H. apply orb_false_iff in H as [-> H].
  rewrite (IH H). reflexivity.
Qed.

Lemma before_present (sep s : string) :
  Py.contains sep s = true -> exists rest, s = before sep s ++ sep ++ rest.
Proof.
  induction s as [|c s IH]; intros H.
  - rewrite contains_nil in H. apply prefix_app in H as [b Hb].
    exists b. exact Hb.
  - cbn [before]. rewrite contains_cons in H.
    destruct (prefix sep (String c s)) eqn:Hp.
    + apply prefix_app in Hp as [b Hb]. exists b. exact Hb.
    + destruct (IH H) as [rest Hrest]. exists rest. simpl.
      rewrite <- Hrest. reflexivity.
Qed.

Lemma prefix_trans_app (sep a rest : string) :
  prefix sep a = true -> prefix sep (a ++ rest) = true.
Proof.
  rewrite !prefix_app. intros [b ->]. exists (b ++ rest).
  apply append_assoc_s.
Qed.

Lemma contains_app_l (n a rest : string) :
  Py.contains n a = true -> Py.contains n (a ++ rest) = true.
Proof.
  rewrite !contains_substring. intros (x & y & ->).
  exists x, (y ++ rest). rewrite !append_assoc_s. reflexivity.
Qed.

Lemma before_no_sep (sep s : string) :
  sep <> "" -> Py.contains sep (before sep s) = false.
Proof.
  intros Hsep. induction s as [|c s IH]; cbn [before].
  - rewrite contains_nil. destruct sep; [congruence | reflexivity].
  - destruct (prefix sep (String c s)) eqn:Hp.
    + rewrite contains_nil. destruct sep; [congruence | reflexivity].
    + rewrite contains_cons, IH, orb_false_r.
      destruct (prefix sep (String c (before sep s))) eqn:Hq; [|reflexivity].
      destruct (before_prefix sep s) as [rest Hrest].
      apply (prefix_trans_app _ _ rest) in Hq.
      change (String c (before sep s) ++ rest)
        with (String c (before sep s ++ rest)) in Hq.
      rewrite <- Hrest in Hq. congruence.
Qed.

(** The name a relocated file gets: what comes before the first double
    underscore of the detected name. *)
Theorem clean_name_shape (raw : string) :
  (exists rest, raw = Py.split_head raw "__" ++ rest)
  /\ Py.contains "__" (Py.split_head raw "__") = false
  /\ (Py.contains "__" raw = false -> Py.split_head raw "__" = raw)
  /\ (Py.contains "__" raw = true ->
      exists rest, raw = Py.split_head raw "__" ++ "__" ++ rest).
Proof.
  rewrite split_head_before. split; [apply before_prefix|].
  split; [apply before_no_sep; discriminate|].
  split; [apply before_absent | apply before_present].
Qed.

Lemma clean_name_shape_witness :
  Py.split_head "report.pdf" "__" = "report.pdf".
Proof.
  destruct (clean_name_shape "report.pdf") as (_ & _ & H & _).
  apply H. reflexivity.
Defined.

Lemma prefix_char (a c : ascii) (x : string) :
  prefix (String a "") (String c x) = Ascii.eqb a c.
Proof.
  simpl. destruct (ascii_dec a c) as [->|Hne].
  - rewrite Ascii.eqb_refl. destruct x; reflexivity.
  - symmetry. apply Ascii.eqb_neq. exact Hne.
Qed.

Lemma contains_char_cons (a c : ascii) (x : string) :
  Py.contains (String a "") (String c x)
  = Ascii.eqb a c || Py.contains (String a "") x.
Proof. rewrite contains_cons, prefix_char. reflexivity. Qed.

Lemma contains_char_app (a : ascii) (x y : string) :
  Py.contains (String a "") (x ++ y)
  = Py.contains (String a "") x || Py.contains (String a "") y.
Proof.
  induction x as [|c x IH].
  - reflexivity.
  - change (String c x ++ y) with (String c (x ++ y)).
    rewrite !contains_char_cons, IH. apply orb_assoc.
Qed.

Lemma before_char (a : ascii) (d t : string) :
  Py.contains (String a "") d = false ->
  before (String a "") (d ++ String a "" ++ t) = d.
Proof.
  induction d as [|c d IH]; intros H.
  - change ("" ++ String a "" ++ t) with (String a t).
    cbn [before]. rewrite prefix_char, Ascii.eqb_refl. reflexivity.
  - rewrite contains_char_cons in H. apply orb_false_iff in H as [Hc H].
    change (String c d ++ String a "" ++ t)
      with (String c (d ++ String a "" ++ t)).
    cbn [before]. rewrite prefix_char, Hc, (IH H). reflexivity.
Qed.

(** The storage key for a timestamp [date_time]: the date part is the
    folder.  Without a timestamp, or with an empty one, the clock of the
    moment of the upload takes its place. *)
Theorem s3_key_shape (env : Env) (pdf_path d t : string) :
  Py.contains "_" d = false ->
  s3_key_of env pdf_path (Some (d ++ "_" ++ t))
  = d ++ "/" ++ (d ++ "_" ++ t) ++ "_" ++ Py.basename pdf_path
  /\ s3_key_of env pdf_path None
     = s3_key_of env pdf_path (Some (now_stamp env))
  /\ s3_key_of env pdf_path (Some "")
     = s3_key_of env pdf_path (Some (now_stamp env)).
Proof.
  intros Hd. split.
  - rewrite s3_key_of_stamped.
    + rewrite split_head_before, (before_char _ _ _ Hd). reflexivity.
    + destruct d; discriminate.
  - unfold s3_key_of. cbn [Py.truthy String.eqb negb].
    destruct (Py.truthy (now_stamp env)); split; reflexivity.
Qed.

Lemma s3_key_shape_witness :
  s3_key_of env_next_day "/home/u/PDF_Prints/2024/05/01/a.pdf"
    (Some "2024-05-01_09-00-00")
  = "2024-05-01/2024-05-01_09-00-00_a.pdf".
Proof.
  apply (proj1 (@s3_key_shape env_next_day
                  "/home/u/PDF_Prints/2024/05/01/a.pdf"
                  "2024-05-01" "09-00-00" eq_refl)).
Defined.

Lemma basename_from_after_slash (a f : string) :
  forall cur,
    Py.basename_from cur (a ++ "/" ++ f) = Py.basename_from "" f.
Proof.
  induction a as [|c a IH]; intros cur.
  - reflexivity.
  - change (String c a ++ "/" ++ f) with (String c (a ++ "/" ++ f)).
    cbn [Py.basename_from]. destruct (Ascii.eqb c "/"); apply IH.
Qed.

Lemma basename_from_slash_free (s : string) :
  forall cur,
    Py.contains "/" s = false -> Py.basename_from cur s = cur ++ s.
Proof.
  induction s as [|c s IH]; intros cur H; cbn [Py.basename_from].
  - symmetry. apply append_nil_r_s.
  - rewrite contains_char_cons in H. apply orb_false_iff in H as [Hc H].
    rewrite Ascii.eqb_sym, Hc, (IH _ H), append_assoc_s. reflexivity.
Qed.

Lemma basename_from_no_slash (s : string) :
  forall cur,
    Py.contains "/" cur = false ->
    Py.contains "/" (Py.basename_from cur s) = false.
Proof.
  induction s as [|c s IH]; intros cur H; cbn [Py.basename_from];
    [exact H|].
  destruct (Ascii.eqb c "/") eqn:Hc.
  - apply IH. reflexivity.
  - apply IH. rewrite contains_char_app, H, contains_char_cons.
    rewrite Ascii.eqb_sym, Hc. reflexivity.
Qed.

Lemma endswith_slash (a : string) :
  Py.endswith a "/" = true -> exists a', a = a' ++ "/".
Proof.
  induction a as [|c a IH]; cbn [Py.endswith]; intros H.
  - discriminate.
  - apply orb_true_iff in H as [H|H].
    + apply String.eqb_eq in H. exists "". exact H.
    + destruct (IH H) as [a' ->]. exists (String c a'). reflexivity.
Qed.

Lemma basename_join (a f : string) :
  Py.contains "/" f = false -> Py.basename (Py.join a f) = f.
Proof.
  intros Hf. unfold Py.basename, Py.join, Py.startswith.
  assert (Hstart : prefix "/" f = false).
  { destruct f as [|c f]; [reflexivity|].
    rewrite contains_char_cons in Hf. apply orb_false_iff in Hf as [Hc _].
    rewrite prefix_char. exact Hc. }
  rewrite Hstart.
  destruct (negb (Py.truthy a) || Py.endswith a "/") eqn:Ha.
  - apply orb_true_iff in Ha as [Ha|Ha].
    + destruct a; [|discriminate]. apply (basename_from_slash_free _ "" Hf).
    + destruct (endswith_slash _ Ha) as [a' ->].
      rewrite append_assoc_s, basename_from_after_slash.
      apply (basename_from_slash_free _ "" Hf).
  - rewrite basename_from_after_slash.
    apply (basename_from_slash_free _ "" Hf).
Qed.

Lemma clean_name_no_slash (p : string) :
  Py.contains "/" (Py.split_head (Py.basename p) "__") = false.
Proof.
  rewrite split_head_before.
  destruct (before_prefix "__" (Py.basename p)) as [rest Hrest].
  assert (H : Py.contains "/" (Py.basename p) = false)
    by (apply basename_from_no_slash; reflexivity).
  rewrite Hrest, contains_char_app in H.
  apply orb_false_iff in H as [H _]. exact H.
Qed.

(** A relocated document is stored, queued and uploaded under its cleaned
    name: the base name of its destination path is the cleaned name, which
    holds no slash and no double underscore, so its storage key is
    [{date part}/{created_time}_{cleaned name}]. *)
Theorem relocated_document_name (env : Env) (self : PDFHandler)
    (event : FsEvent) :
  let clean_name := Py.split_head (Py.basename (src_path event)) "__" in
  Py.basename (dest_path_of env self event) = clean_name
  /\ Py.contains "/" clean_name = false
  /\ Py.contains "__" clean_name = false
  /\ s3_key_of env (path (item_of env self event))
       (created_time (item_of env self event))
     = Py.split_head (now_stamp env) "_"
       ++ "/" ++ now_stamp env ++ "_" ++ clean_name.
Proof.
  cbv zeta. split.
  { apply basename_join, clean_name_no_slash. }
  split; [apply clean_name_no_slash|].
  split; [apply clean_name_shape|].
  unfold s3_key_of, item_of. cbn [path created_time].
  unfold dest_path_of at 1.
  rewrite (basename_join _ _ (clean_name_no_slash _)).
  destruct (Py.truthy (now_stamp env)); reflexivity.
Qed.

Lemma endswith_app (x s suffix : string) :
  Py.endswith s suffix = true -> Py.endswith (x ++ s) suffix = true.
Proof.
  intros H. induction x as [|c x IH]; [exact H|].
  change (String c x ++ s) with (String c (x ++ s)).
  cbn [Py.endswith]. rewrite IH. apply orb_true_r.
Qed.

Lemma endswith_join (root file suffix : string) :
  Py.endswith file suffix = true ->
  Py.endswith (Py.join root file) suffix = true.
Proof.
  intros H. unfold Py.join.
  destruct (Py.startswith file "/"); [exact H|].
  destruct (negb (Py.truthy root) || Py.endswith root "/").
  - apply endswith_app. exact H.
  - apply endswith_app. apply (endswith_app "/"). exact H.
Qed.


(** ** More on the field normaliser *)

Lemma lower_ascii_idem (c : ascii) :
  Py.lower_ascii (Py.lower_ascii c) = Py.lower_ascii c.
Proof. destruct c as [[] [] [] [] [] [] [] []]; reflexivity. Qed.

Lemma lower_upper_ascii (c : ascii) :
  Py.lower_ascii (PyStr.upper_ascii c) = Py.lower_ascii c.
Proof. destruct c as [[] [] [] [] [] [] [] []]; reflexivity. Qed.

Lemma lower_idem (s : string) : Py.lower (Py.lower s) = Py.lower s.
Proof.
  induction s as [|c s IH]; simpl; [reflexivity|].
  rewrite lower_ascii_idem, IH. reflexivity.
Qed.

Lemma lower_upper (s : string) : Py.lower (PyStr.upper s) = Py.lower s.
Proof.
  induction s as [|c s IH]; simpl; [reflexivity|].
  rewrite lower_upper_ascii, IH. reflexivity.
Qed.

Lemma key_matches_map (f : string -> string) (ps : list string) (k : string) :
  (forall p, Py.lower (f p) = Py.lower p) ->
  key_matches (map f ps) k = key_matches ps k.
Proof.
  intros Hf. unfold key_matches.
  induction ps as [|p ps IH]; simpl; [reflexivity|].
  rewrite Hf, IH. reflexivity.
Qed.

Lemma first_match_ext (kvs : dict string) (ps ps' : list string) :
  (forall k, key_matches ps k = key_matches ps' k) ->
  first_match kvs ps = first_match kvs ps'.
Proof.
  intros H. unfold first_match.
  induction kvs as [|[k v] kvs IH]; simpl; [reflexivity|].
  rewrite H. destruct (key_matches ps' k); [reflexivity | exact IH].
Qed.

(** Matching ignores the case of the labels and of the raw keys. *)
Theorem match_key_case_insensitive (kvs : dict string) (ps : list string) :
  match_key kvs (map Py.lower ps) = match_key kvs ps
  /\ match_key kvs (map PyStr.upper ps) = match_key kvs ps
  /\ (forall k, key_matches ps (Py.lower k) = key_matches ps k)
  /\ (forall k, key_matches ps (PyStr.upper k) = key_matches ps k).
Proof.
  rewrite !match_key_first_match. split.
  { apply first_match_ext. intros k. apply key_matches_map, lower_idem. }
  split.
  { apply first_match_ext. intros k. apply key_matches_map, lower_upper. }
  split; intros k; unfold key_matches;
    [rewrite lower_idem | rewrite lower_upper]; reflexivity.
Qed.

Lemma extract_invoice_fields_table (kvs : dict string) :
  extract_invoice_fields kvs
  = map (fun f => (fst f, first_match kvs (snd f))) field_table.
Proof.
  unfold extract_invoice_fields, field_table. simpl.
  rewrite !match_key_first_match. reflexivity.
Qed.

Lemma contains_absorbed (q p k : string) :
  Py.contains q p = true ->
  Py.contains p k = true ->
  Py.contains q k = false ->
  False.
Proof.
  intros Hqp Hpk Hqk. rewrite (contains_trans _ _ _ Hqp Hpk) in Hqk.
  discriminate.
Qed.

(** A label that contains another label of its list never decides a
    match: the normaliser gives the same record with the shorter lists of
    [effective_table], where Invoice Date is fed by any key containing
    "date" and Total Amount by any key containing "total". *)
Theorem extract_invoice_fields_effective (kvs : dict string) :
  extract_invoice_fields kvs
  = map (fun f => (fst f, first_match kvs (snd f))) effective_table.
Proof.
  rewrite extract_invoice_fields_table.
  unfold field_table, effective_table. cbn [map fst snd].
  repeat (apply f_equal2; [apply (f_equal (pair _))|]).
  all: try reflexivity.
  all: apply first_match_ext; intros k; unfold key_matches; cbn [existsb];
    repeat match goal with
           | |- context [Py.lower (String ?c ?s)] =>
               let v := eval vm_compute in (Py.lower (String c s)) in
               change (Py.lower (String c s)) with v
           end;
    generalize (Py.lower k); intros lk;
    repeat match goal with
           | |- context [Py.contains ?p lk] =>
               destruct (Py.contains p lk) eqn:?
           end;
    try reflexivity;
    exfalso;
    match goal with
    | H1 : Py.contains ?p lk = true, H2 : Py.contains ?q lk = false |- _ =>
        exact (@contains_absorbed q p lk eq_refl H1 H2)
    end.
Qed.

Lemma first_match_origin (kvs : dict string) (ps : list string) :
  first_match kvs ps = ""
  \/ exists k, In (k, first_match kvs ps) kvs /\ key_matches ps k = true.
Proof.
  unfold first_match.
  destruct (find (fun kv => key_matches ps (fst kv)) kvs) as [[k v]|] eqn:Hf;
    [|left; reflexivity].
  right. apply find_some in Hf as [Hin Hk]. exists k. auto.
Qed.

(** A record is written only when some raw entry with a non-empty value
    has a key matching a field; blank values or foreign labels alone give
    no record.  The converse fails: a blank first match hides a later
    match of the same field. *)
Theorem record_needs_matching_value (kvs : dict string) :
  (Py.any (values (extract_invoice_fields kvs)) = true ->
   exists name ps k v,
     In (name, ps) field_table /\ In (k, v) kvs
     /\ key_matches ps k = true /\ v <> "")
  /\ ((forall kv, In kv kvs -> snd kv = "") ->
      Py.any (values (extract_invoice_fields kvs)) = false)
  /\ ((forall name ps, In (name, ps) field_table ->
         existsb (key_matches ps) (keys kvs) = false) ->
      Py.any (values (extract_invoice_fields kvs)) = false)
  /\ Py.any (values (extract_invoice_fields
                       [("Total", ""); ("Grand Total", "100")])) = false.
Proof.
  assert (Hmain : Py.any (values (extract_invoice_fields kvs)) = true ->
                  exists name ps k v,
                    In (name, ps) field_table /\ In (k, v) kvs
                    /\ key_matches ps k = true /\ v <> "").
  { rewrite extract_invoice_fields_table. unfold Py.any, values.
    rewrite map_map. cbn [snd]. intros H.
    apply existsb_exists in H as (v & Hin & Hv).
    apply in_map_iff in Hin as ([name ps] & <- & Hin). cbn [snd] in *.
    destruct (first_match_origin kvs ps) as [E|(k & Hk & Hm)].
    - rewrite E in Hv. discriminate.
    - exists name, ps, k, (first_match kvs ps). repeat split; auto.
      intros E. rewrite E in Hv. discriminate. }
  split; [exact Hmain|]. split; [|split; [|reflexivity]].
  - intros Hblank.
    destruct (Py.any (values (extract_invoice_fields kvs))) eqn:E;
      [|reflexivity].
    destruct (Hmain eq_refl) as (name & ps & k & v & _ & Hin & _ & Hv).
    elim Hv. exact (Hblank _ Hin).
  - intros Hnone.
    destruct (Py.any (values (extract_invoice_fields kvs))) eqn:E;
      [|reflexivity].
    destruct (Hmain eq_refl) as (name & ps & k & v & Hf & Hin & Hm & _).
    specialize (Hnone name ps Hf).
    assert (Hex : existsb (key_matches ps) (keys kvs) = true).
    { apply existsb_exists. exists k. split; [|exact Hm].
      unfold keys. apply in_map_iff. exists (k, v). auto. }
    congruence.
Qed.

Lemma record_needs_matching_value_witness :
  Py.any (values (extract_invoice_fields [("Invoice No", ""); ("GSTIN", "")]))
  = false.
Proof.
  apply (proj1 (proj2 (record_needs_matching_value
                         [("Invoice No", ""); ("GSTIN", "")]))).
  intros kv [<-|[<-|[]]]; reflexivity.
Defined.

(** ** Dictionaries *)

Lemma getitem_setitem_same {V} (d : dict V) (k : string) (v : V) :
  getitem (setitem d k v) k = Some v.
Proof.
  induction d as [|[k' v'] d IH]; simpl.
  - rewrite String.eqb_refl. reflexivity.
  - destruct (String.eqb k' k) eqn:E; simpl; rewrite E; [reflexivity | exact IH].
Qed.

Lemma getitem_setitem_other {V} (d : dict V) (k k' : string) (v : V) :
  k' <> k -> getitem (setitem d k v) k' = getitem d k'.
Proof.
  intros Hne. induction d as [|[k0 v0] d IH]; simpl.
  - apply String.eqb_neq in Hne. rewrite String.eqb_sym, Hne. reflexivity.
  - destruct (String.eqb k0 k) eqn:E; simpl.
    + apply String.eqb_eq in E. subst k0.
      apply String.eqb_neq in Hne. rewrite String.eqb_sym, Hne. reflexivity.
    + rewrite IH. reflexivity.
Qed.

Lemma in_setitem {V} (d : dict V) (k k' : string) (v v' : V) :
  In (k', v') (setitem d k v) -> (k' = k /\ v' = v) \/ In (k', v') d.
Proof.
  induction d as [|[k0 v0] d IH]; simpl.
  - intros [H|[]]. left. split; congruence.
  - destruct (String.eqb k0 k) eqn:E; simpl.
    + apply String.eqb_eq in E. subst k0.
      intros [H|H]; [left; split; congruence | right; right; exact H].
    + intros [H|H]; [right; left; exact H|].
      destruct (IH H) as [Hl|Hr]; [left; exact Hl | right; right; exact Hr].
Qed.

Lemma keys_setitem {V} (d : dict V) (k k' : string) (v : V) :
  In k' (keys (setitem d k v)) <-> k' = k \/ In k' (keys d).
Proof.
  unfold keys. induction d as [|[k0 v0] d IH]; simpl.
  - split; [intros [H|[]]; left; congruence | intros [H|[]]; left; congruence].
  - destruct (String.eqb k0 k) eqn:E; simpl.
    + apply String.eqb_eq in E. subst k0. split; [tauto|].
      intros [H|H]; [left; congruence | exact H].
    + rewrite IH. tauto.
Qed.

Lemma nodup_setitem {V} (d : dict V) (k : string) (v : V) :
  NoDup (keys d) -> NoDup (keys (setitem d k v)).
Proof.
  induction d as [|[k0 v0] d IH]; simpl; intros Hnd.
  - repeat constructor. intros [].
  - inversion Hnd as [|x l Hnotin Hnd']; subst.
    destruct (String.eqb k0 k) eqn:E; simpl.
    + exact Hnd.
    + constructor; [|apply IH; exact Hnd'].
      intros Hin. apply keys_setitem in Hin as [->|Hin].
      * rewrite String.eqb_refl in E. discriminate.
      * exact (Hnotin Hin).
Qed.

Lemma getitem_in_keys {V} (d : dict V) (k : string) (v : V) :
  getitem d k = Some v -> In k (keys d).
Proof.
  induction d as [|[k0 v0] d IH]; simpl; [discriminate|].
  destruct (String.eqb k0 k) eqn:E.
  - apply String.eqb_eq in E. intros _. left. exact E.
  - intros H. right. exact (IH H).
Qed.

(** ** Whitespace *)

Lemma rstrip_keeps_text (s : string) :
  PyStr.all_space s = false -> PyStr.all_space (PyStr.rstrip s) = false.
Proof.
  induction s as [|c s IH]; intros H; [discriminate|].
  cbn [PyStr.rstrip]. rewrite H. cbn [PyStr.all_space] in *.
  destruct (PyStr.is_space c); [|reflexivity]. apply IH. exact H.
Qed.

Lemma rstrip_idem (s : string) :
  PyStr.rstrip (PyStr.rstrip s) = PyStr.rstrip s.
Proof.
  induction s as [|c s IH]; [reflexivity|].
  cbn [PyStr.rstrip]. destruct (PyStr.all_space (String c s)) eqn:E;
    [reflexivity|].
  cbn [PyStr.rstrip]. rewrite IH.
  assert (E' : PyStr.all_space (String c (PyStr.rstrip s)) = false).
  { cbn [PyStr.all_space] in *. destruct (PyStr.is_space c); [|reflexivity].
    apply rstrip_keeps_text. exact E. }
  rewrite E'. reflexivity.
Qed.

Lemma lstrip_head (s : string) :
  PyStr.lstrip s = ""
  \/ exists c s', PyStr.lstrip s = String c s' /\ PyStr.is_space c = false.
Proof.
  induction s as [|c s IH]; [left; reflexivity|].
  cbn [PyStr.lstrip]. destruct (PyStr.is_space c) eqn:E; [exact IH|].
  right. exists c, s. auto.
Qed.

Lemma strip_idem (s : string) : PyStr.strip (PyStr.strip s) = PyStr.strip s.
Proof.
  unfold PyStr.strip.
  destruct (lstrip_head s) as [->|(c & s' & -> & Hc)]; [reflexivity|].
  assert (E : PyStr.rstrip (String c s') = String c (PyStr.rstrip s')).
  { cbn [PyStr.rstrip PyStr.all_space]. rewrite Hc. reflexivity. }
  assert (L : PyStr.lstrip (PyStr.rstrip (String c s'))
              = PyStr.rstrip (String c s')).
  { rewrite E. cbn [PyStr.lstrip]. rewrite Hc. reflexivity. }
  rewrite L. apply rstrip_idem.
Qed.

(** ** [get_kv_map] *)

Lemma blocks_loop_clean (bm : dict Block) (blocks : list Block) :
  forall kvs kvs',
    blocks_loop bm blocks kvs = Found kvs' ->
    NoDup (keys kvs)
    /\ (forall k v, In (k, v) kvs -> PyStr.strip k = k /\ PyStr.strip v = v) ->
    NoDup (keys kvs')
    /\ (forall k v, In (k, v) kvs' -> PyStr.strip k = k /\ PyStr.strip v = v).
Proof.
  induction blocks as [|b rest IH]; intros kvs kvs' H Hc; cbn [blocks_loop] in H.
  - injection H as <-. exact Hc.
  - destruct (is_key_block b); [|exact (IH _ _ H Hc)].
    destruct (rels_loop bm _ "" "") as [[key value]|]; [|discriminate].
    cbn [lookup_bind] in H. apply (IH _ _ H).
    destruct (Py.truthy key); [|exact Hc].
    destruct Hc as [Hnd Hstr]. split; [apply nodup_setitem; exact Hnd|].
    intros k v Hin. apply in_setitem in Hin as [[-> ->]|Hin].
    + split; apply strip_idem.
    + exact (Hstr k v Hin).
Qed.

(** The mapping [get_kv_map] returns holds each label once, and its
    labels and values carry no leading or trailing whitespace. *)
Theorem get_kv_map_entries (blocks : list Block) (kvs : dict string) :
  get_kv_map blocks = Found kvs ->
  NoDup (keys kvs)
  /\ forall k v, In (k, v) kvs -> PyStr.strip k = k /\ PyStr.strip v = v.
Proof.
  intros H. eapply blocks_loop_clean; [exact H|].
  split; [constructor | intros k v []].
Qed.

(** A response without a KEY block of type KEY_VALUE_SET gives the empty
    mapping, whatever its other blocks refer to, and so no record. *)
Theorem get_kv_map_no_key_block (blocks : list Block) :
  (forall b, In b blocks -> is_key_block b = false) ->
  get_kv_map blocks = Found []
  /\ Py.any (values (extract_invoice_fields [])) = false.
Proof.
  intros H. split; [|reflexivity]. unfold get_kv_map.
  generalize (block_map_of blocks). intros bm.
  induction blocks as [|b rest IH]; cbn [blocks_loop]; [reflexivity|].
  rewrite (H b (or_introl eq_refl)). apply IH.
  intros b' Hin. apply H. right. exact Hin.
Qed.

Lemma block_map_value (blocks : list Block) :
  forall (m : dict Block) (i : string) (b : Block),
    getitem (fold_left (fun m b => setitem m (block_id b) b) blocks m) i
    = Some b ->
    In b blocks \/ getitem m i = Some b.
Proof.
  induction blocks as [|b0 rest IH]; intros m i b H; cbn [fold_left] in H.
  - right. exact H.
  - destruct (IH _ _ _ H) as [Hin|Hm]; [left; right; exact Hin|].
    destruct (string_dec i (block_id b0)) as [->|Hne].
    + rewrite getitem_setitem_same in Hm. injection Hm as <-.
      left. left. reflexivity.
    + rewrite (getitem_setitem_other _ _ Hne) in Hm. right. exact Hm.
Qed.

Lemma block_map_key (blocks : list Block) :
  forall (m : dict Block) (i : string),
    In i (map block_id blocks) \/ In i (keys m) ->
    In i (keys (fold_left (fun m b => setitem m (block_id b) b) blocks m)).
Proof.
  induction blocks as [|b0 rest IH]; intros m i H; cbn [fold_left].
  - destruct H as [[]|H]. exact H.
  - apply IH. cbn [map] in H. rewrite keys_setitem.
    destruct H as [[H|H]|H]; [right; left; congruence | tauto | tauto].
Qed.

Lemma block_map_missing (blocks : list Block) (i : string) :
  getitem (block_map_of blocks) i = None -> ~ In i (map block_id blocks).
Proof.
  intros H Hin.
  apply (getitem_of_key (block_map_of blocks) i); [|exact H].
  apply block_map_key. left. exact Hin.
Qed.

Lemma block_map_found (blocks : list Block) (i : string) :
  In i (map block_id blocks) ->
  exists b, getitem (block_map_of blocks) i = Some b /\ In b blocks.
Proof.
  intros Hin.
  destruct (getitem (block_map_of blocks) i) as [b|] eqn:E.
  - exists b. split; [reflexivity|].
    destruct (block_map_value _ _ _ E) as [H|H]; [exact H | discriminate].
  - elim (block_map_missing _ _ E Hin).
Qed.

Section Lookups.

Variable bm : dict Block.

Lemma texts_of_error (ids : list string) (i : string) :
  texts_of bm ids = KeyError i -> getitem bm i = None.
Proof.
  induction ids as [|j ids IH]; cbn [texts_of]; [discriminate|].
  unfold lookup_block. destruct (getitem bm j) eqn:E; cbn [lookup_bind].
  - destruct (texts_of bm ids); cbn [lookup_bind]; [discriminate|].
    intros [= ->]. apply IH. reflexivity.
  - intros [= ->]. exact E.
Qed.

Lemma value_rels_loop_error (rels : list Relationship) (i : string) :
  forall value,
    value_rels_loop bm rels value = KeyError i -> getitem bm i = None.
Proof.
  induction rels as [|r rels IH]; intros value; cbn [value_rels_loop];
    [discriminate|].
  destruct (String.eqb (rel_type r) "CHILD"); [|apply IH].
  destruct (texts_of bm (rel_ids r)) eqn:E; cbn [lookup_bind]; [apply IH|].
  intros [= ->]. exact (texts_of_error _ E).
Qed.

Lemma value_ids_loop_error (ids : list string) (i : string) :
  forall value,
    value_ids_loop bm ids value = KeyError i -> getitem bm i = None.
Proof.
  induction ids as [|j ids IH]; intros value; cbn [value_ids_loop];
    [discriminate|].
  unfold lookup_block. destruct (getitem bm j) as [vb|] eqn:E;
    cbn [lookup_bind]; [|intros [= ->]; exact E].
  destruct (block_relationships vb) as [rels|]; cbn [lookup_bind];
    [|apply IH].
  destruct (value_rels_loop bm rels value) eqn:E'; cbn [lookup_bind];
    [apply IH|].
  intros [= ->]. exact (value_rels_loop_error _ _ E').
Qed.

Lemma rels_loop_error (rels : list Relationship) (i : string) :
  forall key value,
    rels_loop bm rels key value = KeyError i -> getitem bm i = None.
Proof.
  induction rels as [|r rels IH]; intros key value; cbn [rels_loop];
    [discriminate|].
  destruct (String.eqb (rel_type r) "CHILD").
  - destruct (texts_of bm (rel_ids r)) eqn:E; cbn [lookup_bind]; [apply IH|].
    intros [= ->]. exact (texts_of_error _ E).
  - destruct (String.eqb (rel_type r) "VALUE"); [|apply IH].
    destruct (value_ids_loop bm (rel_ids r) value) eqn:E; cbn [lookup_bind];
      [apply IH|].
    intros [= ->]. exact (value_ids_loop_error _ _ E).
Qed.

Lemma blocks_loop_error (blocks : list Block) (i : string) :
  forall kvs, blocks_loop bm blocks kvs = KeyError i -> getitem bm i = None.
Proof.
  induction blocks as [|b rest IH]; intros kvs; cbn [blocks_loop];
    [discriminate|].
  destruct (is_key_block b); [|apply IH].
  destruct (rels_loop bm _ "" "") as [[key value]|] eqn:E; cbn [lookup_bind];
    [apply IH|].
  intros [= ->]. exact (rels_loop_error _ _ _ E).
Qed.

Hypothesis bm_sound :
  forall i b rels,
    getitem bm i = Some b ->
    block_relationships b = Some rels ->
    sound_rels bm rels.

Lemma texts_of_found (ids : list string) :
  known_ids bm ids -> exists texts, texts_of bm ids = Found texts.
Proof.
  induction ids as [|j ids IH]; intros Hk; cbn [texts_of]; [eauto|].
  destruct (Hk j (or_introl eq_refl)) as [b Hb].
  unfold lookup_block. rewrite Hb. cbn [lookup_bind].
  destruct IH as [texts ->]; [intros i Hi; apply Hk; right; exact Hi|].
  cbn [lookup_bind]. eauto.
Qed.

Lemma value_rels_loop_found (rels : list Relationship) :
  sound_rels bm rels ->
  forall value, exists v, value_rels_loop bm rels value = Found v.
Proof.
  induction rels as [|r rels IH]; intros Hs value; cbn [value_rels_loop];
    [eauto|].
  assert (Hs' : sound_rels bm rels)
    by (intros rel Hin; apply Hs; right; exact Hin).
  destruct (String.eqb (rel_type r) "CHILD"); [|apply IH; exact Hs'].
  destruct (texts_of_found (Hs r (or_introl eq_refl))) as [texts ->].
  cbn [lookup_bind]. apply IH. exact Hs'.
Qed.

Lemma value_ids_loop_found (ids : list string) :
  known_ids bm ids ->
  forall value, exists v, value_ids_loop bm ids value = Found v.
Proof.
  induction ids as [|j ids IH]; intros Hk value; cbn [value_ids_loop];
    [eauto|].
  assert (Hk' : known_ids bm ids) by (intros i Hi; apply Hk; right; exact Hi).
  destruct (Hk j (or_introl eq_refl)) as [vb Hvb].
  unfold lookup_block. rewrite Hvb. cbn [lookup_bind].
  destruct (block_relationships vb) as [rels|] eqn:Hrels; cbn [lookup_bind].
  - destruct (value_rels_loop_found (bm_sound _ Hvb Hrels) value) as [v ->].
    cbn [lookup_bind]. apply IH. exact Hk'.
  - apply IH. exact Hk'.
Qed.

Lemma rels_loop_found (rels : list Relationship) :
  sound_rels bm rels ->
  forall key value, exists kv, rels_loop bm rels key value = Found kv.
Proof.
  induction rels as [|r rels IH]; intros Hs key value; cbn [rels_loop];
    [eauto|].
  assert (Hs' : sound_rels bm rels)
    by (intros rel Hin; apply Hs; right; exact Hin).
  destruct (String.eqb (rel_type r) "CHILD").
  - destruct (texts_of_found (Hs r (or_introl eq_refl))) as [texts ->].
    cbn [lookup_bind]. apply IH. exact Hs'.
  - destruct (String.eqb (rel_type r) "VALUE"); [|apply IH; exact Hs'].
    destruct (value_ids_loop_found (Hs r (or_introl eq_refl)) value) as [v ->].
    cbn [lookup_bind]. apply IH. exact Hs'.
Qed.

Lemma blocks_loop_found (blocks : list Block) :
  (forall b rels,
      In b blocks ->
      block_relationships b = Some rels ->
      sound_rels bm rels) ->
  forall kvs, exists kvs', blocks_loop bm blocks kvs = Found kvs'.
Proof.
  induction blocks as [|b rest IH]; intros Hb kvs; cbn [blocks_loop]; [eauto|].
  assert (Hrest : forall b' rels,
             In b' rest ->
             block_relationships b' = Some rels ->
             sound_rels bm rels)
    by (intros b' rels Hin; apply Hb; right; exact Hin).
  destruct (is_key_block b); [|apply IH; exact Hrest].
  assert (Hs : sound_rels bm (match block_relationships b with
                      | Some rels => rels
                      | None => []
                      end)).
  { destruct (block_relationships b) as [rels|] eqn:E.
    - exact (Hb b rels (or_introl eq_refl) E).
    - intros rel []. }
  destruct (rels_loop_found Hs "" "") as [[key value] ->].
  cbn [lookup_bind]. apply IH. exact Hrest.
Qed.

End Lookups.

(** [get_kv_map] returns a mapping whenever every id named by a
    relationship is the id of a block of the response; when it raises, the
    [KeyError] names an id that no block carries. *)
Theorem get_kv_map_key_errors (blocks : list Block) :
  (no_dangling_id blocks -> exists kvs, get_kv_map blocks = Found kvs)
  /\ (forall i, get_kv_map blocks = KeyError i ->
                ~ In i (map block_id blocks)).
Proof.
  split.
  - intros Hnd. unfold get_kv_map.
    assert (Hsound : forall b rels,
               In b blocks -> block_relationships b = Some rels ->
               forall rel, In rel rels ->
               forall i, In i (rel_ids rel) ->
               exists b', getitem (block_map_of blocks) i = Some b').
    { intros b rels Hb Hr rel Hrel i Hi.
      destruct (block_map_found blocks i (Hnd b rels rel i Hb Hr Hrel Hi))
        as (b' & Hb' & _). eauto. }
    apply blocks_loop_found; [|exact Hsound].
    intros i b rels Hget Hr.
    destruct (block_map_value _ _ _ Hget) as [Hin|Habs]; [|discriminate].
    exact (Hsound b rels Hin Hr).
  - intros i H. apply block_map_missing.
    exact (blocks_loop_error _ _ _ H).
Qed.

(** ** Printer discovery *)

Lemma detect_idle_find (exclude_name : string) (items : dict (dict AttrVal)) :
  detect_idle exclude_name items
  = option_map fst
      (find (fun kv => eligible exclude_name (fst kv) && is_idle (snd kv))
         items).
Proof.
  induction items as [|[name attrs] rest IH]; cbn [detect_idle find fst snd];
    [reflexivity|].
  destruct (eligible exclude_name name && is_idle attrs); [reflexivity|].
  exact IH.
Qed.

Lemma detect_any_find (exclude_name : string) (items : dict (dict AttrVal)) :
  detect_any exclude_name (keys items)
  = option_map fst (find (fun kv => eligible exclude_name (fst kv)) items).
Proof.
  unfold keys.
  induction items as [|[name attrs] rest IH]; cbn [detect_any map find fst];
    [reflexivity|].
  destruct (eligible exclude_name name); [reflexivity | exact IH].
Qed.

(** [detect_physical_printer] never answers with the excluded printer nor
    with a printer whose name holds "PDF" in any case; what it answers is a
    printer CUPS listed; it answers [None] exactly when every listed
    printer is excluded or a PDF printer. *)
Theorem detect_physical_printer_sound (printers : dict (dict AttrVal))
    (exclude_name : string) :
  (forall name,
      detect_physical_printer printers exclude_name = Some name ->
      In name (keys printers)
      /\ name <> exclude_name
      /\ Py.contains "pdf" (Py.lower name) = false)
  /\ (detect_physical_printer printers exclude_name = None <->
      forall name, In name (keys printers) ->
                   eligible exclude_name name = false).
Proof.
  unfold detect_physical_printer. rewrite detect_idle_find, detect_any_find.
  assert (Hel : forall name,
             eligible exclude_name name = true ->
             name <> exclude_name
             /\ Py.contains "pdf" (Py.lower name) = false).
  { unfold eligible. intros name H. apply andb_true_iff in H as [H1 H2].
    split.
    - intros ->. rewrite String.eqb_refl in H1. discriminate.
    - destruct (Py.contains "pdf" (Py.lower name)) eqn:E; [|reflexivity].
      apply contains_substring in E as (a & b & E).
      assert (Hup : Py.contains "PDF" (PyStr.upper name) = true).
      { apply contains_substring.
        exists (PyStr.upper a), (PyStr.upper b).
        assert (Happ : forall x y, PyStr.upper (x ++ y)
                                   = PyStr.upper x ++ PyStr.upper y).
        { intros x y. induction x as [|c x IHx]; simpl;
            [reflexivity | rewrite IHx; reflexivity]. }
        assert (Hul : forall x, PyStr.upper (Py.lower x) = PyStr.upper x).
        { intros x. induction x as [|c x IHx]; simpl; [reflexivity|].
          rewrite IHx. f_equal.
          destruct c as [[] [] [] [] [] [] [] []]; reflexivity. }
        rewrite <- Hul, E, !Happ. reflexivity. }
      rewrite Hup in H2. discriminate. }
  split.
  - intros name H.
    destruct (find (fun kv => eligible exclude_name (fst kv) && is_idle (snd kv))
                printers) as [[n attrs]|] eqn:E1.
    + cbn in H. injection H as <-. apply find_some in E1 as [Hin Hp].
      cbn [fst snd] in Hp. apply andb_true_iff in Hp as [Hp _].
      split; [|apply Hel; exact Hp].
      unfold keys. apply in_map_iff. exists (n, attrs). auto.
    + cbn [option_map] in H.
      destruct (find (fun kv => eligible exclude_name (fst kv)) printers)
        as [[n attrs]|] eqn:E2; [|discriminate].
      cbn in H. injection H as <-. apply find_some in E2 as [Hin Hp].
      split; [|apply Hel; exact Hp].
      unfold keys. apply in_map_iff. exists (n, attrs). auto.
  - split.
    + intros H name Hin.
      destruct (find (fun kv => eligible exclude_name (fst kv) && is_idle (snd kv))
                  printers) as [[n attrs]|]; [discriminate|].
      cbn [option_map] in H.
      destruct (find (fun kv => eligible exclude_name (fst kv)) printers)
        as [[n attrs]|] eqn:E2; [discriminate|].
      unfold keys in Hin. apply in_map_iff in Hin as ([n a] & <- & Hin).
      exact (find_none _ _ E2 _ Hin).
    + intros H.
      destruct (find (fun kv => eligible exclude_name (fst kv) && is_idle (snd kv))
                  printers) as [[n attrs]|] eqn:E1.
      * apply find_some in E1 as [Hin Hp]. cbn [fst snd] in Hp.
        apply andb_true_iff in Hp as [Hp _].
        rewrite (H n) in Hp; [discriminate|].
        unfold keys. apply in_map_iff. exists (n, attrs). auto.
      * cbn [option_map].
        destruct (find (fun kv => eligible exclude_name (fst kv)) printers)
          as [[n attrs]|] eqn:E2; [|reflexivity].
        apply find_some in E2 as [Hin Hp]. cbn [fst] in Hp.
        rewrite (H n) in Hp; [discriminate|].
        unfold keys. apply in_map_iff. exists (n, attrs). auto.
Qed.

(** When some listed printer is eligible and idle (state 3), the answer
    is the first such printer, even if a busy eligible printer comes
    earlier; otherwise it is the first eligible printer. *)
Theorem detect_physical_printer_prefers_idle
    (printers : dict (dict AttrVal)) (exclude_name : string) :
  detect_physical_printer printers exclude_name
  = match find (fun kv => eligible exclude_name (fst kv) && is_idle (snd kv))
            printers with
    | Some kv => Some (fst kv)
    | None =>
        option_map fst
          (find (fun kv => eligible exclude_name (fst kv)) printers)
    end
  /\ (forall name attrs,
        In (name, attrs) printers ->
        eligible exclude_name name = true ->
        is_idle attrs = true ->
        exists name' attrs',
          detect_physical_printer printers exclude_name = Some name'
          /\ In (name', attrs') printers
          /\ is_idle attrs' = true).
Proof.
  unfold detect_physical_printer. rewrite detect_idle_find, detect_any_find.
  split.
  - destruct (find _ printers) as [[n a]|]; reflexivity.
  - intros name attrs Hin He Hi.
    destruct (find (fun kv => eligible exclude_name (fst kv) && is_idle (snd kv))
                printers) as [[n a]|] eqn:E1.
    + apply find_some in E1 as [Hin' Hp]. cbn [fst snd] in Hp.
      apply andb_true_iff in Hp as [_ Hp]. exists n, a. cbn. auto.
    + pose proof (find_none _ _ E1 _ Hin) as Hno. cbn [fst snd] in Hno.
      rewrite He, Hi in Hno. discriminate.
Qed.

(** ** The further parts on concrete inputs *)

Lemma get_kv_map_entries_witness :
  NoDup (keys [("Invoice No", "INV-1")]).
Proof.
  apply (@get_kv_map_entries invoice_blocks [("Invoice No", "INV-1")]).
  reflexivity.
Defined.

Lemma get_kv_map_no_key_block_witness :
  get_kv_map text_blocks = Found [].
Proof.
  apply (proj1 (@get_kv_map_no_key_block text_blocks
                  ltac:(intros b [<-|[<-|[]]]; reflexivity))).
Defined.

Lemma get_kv_map_key_errors_witness :
  exists kvs, get_kv_map text_blocks = Found kvs.
Proof.
  apply (proj1 (get_kv_map_key_errors text_blocks)).
  intros b rels rel i Hb Hr Hrel Hi.
  destruct Hb as [<-|[<-|[]]]; cbn in Hr; [|discriminate].
  injection Hr as <-. destruct Hrel as [<-|[]]. destruct Hi as [<-|[]].
  cbn. tauto.
Defined.

Lemma detect_physical_printer_sound_witness :
  In "Inkjet" (keys cups_printers) /\ "Inkjet" <> "zxcv"
  /\ Py.contains "pdf" (Py.lower "Inkjet") = false.
Proof.
  apply (proj1 (detect_physical_printer_sound cups_printers "zxcv")).
  reflexivity.
Defined.

Lemma detect_physical_printer_prefers_idle_witness :
  exists name attrs,
    detect_physical_printer cups_printers "zxcv" = Some name
    /\ In (name, attrs) cups_printers
    /\ is_idle attrs = true.
Proof.
  apply (proj2 (detect_physical_printer_prefers_idle cups_printers "zxcv")
           "Inkjet" [("printer-state", AInt 3)]).
  - cbn. tauto.
  - reflexivity.
  - reflexivity.
Defined.

(** ** Running the pipeline symbolically *)

Arguments append : simpl never.
Arguments Py.join : simpl never.
Arguments Py.basename : simpl never.
Arguments Py.dirname : simpl never.
Arguments Py.split_head : simpl never.
Arguments Py.endswith : simpl never.
Arguments Py.any : simpl never.
Arguments Py.truthy : simpl never.
Arguments s3_key_of : simpl never.
Arguments extract_invoice_fields : simpl never.
Arguments exn_str : simpl never.
Arguments getitem : simpl never.
Arguments setitem : simpl never.
Arguments save_to_excel : simpl never.
Arguments on_created_pipeline : simpl never.
Arguments move_target : simpl never.

(** Case analysis on whatever the run is waiting for; [known] rewrites
    the calls whose outcome a lemma already gives. *)
Ltac crunch_with known :=
  repeat (cbn in *;
          first
            [ known
            | match goal with
              | |- context [match ?x with _ => _ end] =>
                  lazymatch x with
                  | context [match _ with _ => _ end] => fail
                  | _ => destruct x eqn:?
                  end
              end ]).

Ltac crunch := crunch_with ltac:(idtac; fail); cbn in *.

Ltac grown := repeat (apply grows_more; [reflexivity|]); apply grows_same.

Lemma grows_trans {A} (P : A -> bool) (l1 l2 l3 : list A) :
  grows P l1 l2 -> grows P l2 l3 -> grows P l1 l3.
Proof.
  intros H12 H23. induction H23; [assumption|].
  apply grows_more; assumption.
Qed.

Lemma grows_existsb {A} (P : A -> bool) (old l : list A) :
  grows P old l -> existsb P l = existsb P old.
Proof.
  induction 1 as [|x l Hx _ IH]; [reflexivity|].
  simpl. rewrite Hx, IH. reflexivity.
Qed.

Lemma grows_In {A} (P : A -> bool) (old l : list A) (x : A) :
  grows P old l -> In x old -> In x l.
Proof. induction 1; simpl; auto. Qed.

(** *** The record sink *)

Lemma save_to_excel_quiet (env : Env) (data : dict string) (file : string)
    (w : World) :
  exists w',
    save_to_excel env data file w = (Ret tt, w')
    /\ files w' = files w
    /\ queue_file w' = queue_file w
    /\ grows is_queue_write (events w) (events w').
Proof.
  unfold save_to_excel, try_except, bind, makedirs, sheet_exists, read_excel,
    to_excel, s3_upload_file, call, log, emit, ret, raise.
  crunch; eexists; (split; [reflexivity|]); cbn; repeat split; grown.
Qed.

Lemma save_to_excel_write_failure (env : Env) (data : dict string)
    (file : string) (w : World) (e : Exn) :
  sink_write_raises env w file = Some e ->
  exists w' l,
    save_to_excel env data file w = (Ret tt, w')
    /\ events w' = Log ERROR ("🚨 Error saving Excel: " ++ exn_str e) :: l
    /\ sheets w' = sheets w
    /\ sheet_written (events w') = sheet_written (events w).
Proof.
  unfold sink_write_raises, save_to_excel, try_except, bind, makedirs,
    sheet_exists, read_excel, to_excel, s3_upload_file, call, log, emit, ret,
    raise, sheet_written.
  intros H. crunch; try discriminate;
    injection H as <-; do 2 eexists; repeat split.
Qed.

Lemma save_to_excel_mirror_failure (env : Env) (data : dict string)
    (file : string) (w : World) (e : Exn) :
  sink_write_raises env w file = None ->
  sink_mirror_raises env file = Some e ->
  exists w' l,
    save_to_excel env data file w = (Ret tt, w')
    /\ events w'
       = Log ERROR ("❌ Failed to upload Excel to S3: " ++ exn_str e) :: l
    /\ sheet_written (events w') = true.
Proof.
  unfold sink_write_raises, sink_mirror_raises, save_to_excel, try_except,
    bind, makedirs, sheet_exists, read_excel, to_excel, s3_upload_file, call,
    log, emit, ret, raise, sheet_written.
  intros H1 H2. rewrite H2. crunch; try discriminate;
    do 2 eexists; repeat split.
Qed.

(** *** One queued item *)

Lemma still_failed_after_files (env : Env) (w w' : World) (it : Item) :
  files w' = files w ->
  still_failed_after env w' it = still_failed_after env w it.
Proof.
  intros H. unfold still_failed_after, file_present. rewrite H. reflexivity.
Qed.

Lemma retry_item_spec (env : Env) (it : Item) (sf : list Item) (w : World) :
  exists w',
    retry_item env it sf w
    = (Ret (sf ++ if still_failed_after env w it then [it] else [])%list, w')
    /\ files w' = files w
    /\ queue_file w' = queue_file w
    /\ grows is_queue_write (events w) (events w')
    /\ (file_present w it = false ->
        events w'
        = Log WARNING ("❌ File not found for retry: " ++ path it) :: events w).
Proof.
  unfold retry_item, still_failed_after, file_present, upload_failed,
    extraction_failed, record_dir_failed, raises, path_exists,
    upload_pdf_to_s3, retry_extract_and_record, extract_kvs, try_except, bind,
    makedirs, s3_upload_file, call, log, emit, ret, raise.
  crunch_with ltac:(idtac;
    match goal with
    | |- context [Py.truthy (s3_key_of ?e ?p ?c)] =>
        rewrite (s3_key_of_truthy e p c)
    | |- context [save_to_excel ?e ?d ?f ?w] =>
        let w' := fresh "w" in
        destruct (save_to_excel_quiet e d f w) as (w' & -> & ? & ? & ?)
    end); cbn in *; rewrite ?app_nil_r;
    eexists; (split; [reflexivity|]); cbn;
    repeat split; try congruence; try discriminate.
  all: try grown.
  all: try (eapply grows_trans; [|eassumption]; cbn; grown).
  all: eapply grows_trans; [|apply grows_more; [reflexivity|eassumption]];
    cbn; grown.
Qed.

(** *** The whole drain pass *)

Lemma retry_loop_spec (env : Env) (items : list Item) :
  forall (sf : list Item) (w : World),
  exists w',
    retry_loop env items sf w
    = (Ret (sf ++ filter (still_failed_after env w) items)%list, w')
    /\ files w' = files w
    /\ queue_file w' = queue_file w
    /\ grows is_queue_write (events w) (events w')
    /\ (forall it,
          In it items ->
          file_present w it = false ->
          In (Log WARNING ("❌ File not found for retry: " ++ path it))
             (events w')).
Proof.
  induction items as [|item rest IH]; intros sf w.
  - exists w. cbn. rewrite app_nil_r.
    repeat split; [apply grows_same | intros it []].
  - destruct (retry_item_spec env item sf w) as (w1 & E1 & F1 & Q1 & G1 & W1).
    destruct (IH (sf ++ if still_failed_after env w item then [item] else [])%list
                 w1) as (w2 & E2 & F2 & Q2 & G2 & W2).
    exists w2. split.
    { cbn [retry_loop]. unfold bind. rewrite E1, E2. f_equal. f_equal.
      rewrite (filter_ext _ _ (fun it => still_failed_after_files env w w1 it F1)).
      cbn [filter]. destruct (still_failed_after env w item);
        rewrite <- app_assoc; reflexivity. }
    split; [congruence|]. split; [congruence|].
    split; [eapply grows_trans; eassumption|].
    intros it [<-|Hin] Hgone.
    + eapply grows_In; [exact G2|]. rewrite (W1 Hgone). left. reflexivity.
    + apply W2; [exact Hin|]. unfold file_present in *. rewrite F1.
      exact Hgone.
Qed.

Lemma retry_failed_uploads_spec (env : Env) (w : World) :
  connected env = true ->
  queue_file w <> Some Corrupt ->
  exists w' l,
    retry_failed_uploads env w = (Ret tt, w')
    /\ queue_file w'
       = Some (Persisted (filter (still_failed_after env w) (queue_items w)))
    /\ files w' = files w
    /\ events w'
       = QueueWritten (filter (still_failed_after env w) (queue_items w)) :: l
    /\ grows is_queue_write (events w) l
    /\ (forall it,
          In it (queue_items w) ->
          file_present w it = false ->
          In (Log WARNING ("❌ File not found for retry: " ++ path it))
             (events w')).
Proof.
  intros Hon Hq.
  unfold retry_failed_uploads, bind, is_connected, ret, load_failed_uploads,
    queue_items, save_failed_uploads, emit.
  rewrite Hon. cbn.
  destruct (queue_file w) as [[|items]|] eqn:Q; [congruence| |]; cbn.
  - match goal with
    | |- context [retry_loop env items [] ?w1] =>
        destruct (retry_loop_spec env items [] w1) as (w2 & E & F & _ & G & W)
    end.
    rewrite E. cbn in *.
    rewrite (filter_ext _ _ (fun it => still_failed_after_files env w _ it
                                         (eq_refl : files _ = files w))) in *.
    do 2 eexists. split; [reflexivity|]. cbn.
    split; [reflexivity|]. split; [exact F|]. split; [reflexivity|]. split.
    + eapply grows_trans; [|exact G]. grown.
    + intros it Hin Hgone. right. apply W; assumption.
  - do 2 eexists. split; [reflexivity|]. cbn.
    repeat split; [apply grows_same | intros it []].
Qed.


Lemma reaches_sink_not_failed (env : Env) (w : World) (it : Item) :
  reaches_sink env it = true -> still_failed_after env w it = false.
Proof.
  unfold reaches_sink, still_failed_after, extraction_failed,
    record_dir_failed.
  destruct (upload_failed env it); [discriminate|].
  destruct (analyze env AWS_BUCKET_NAME _); [|discriminate].
  destruct (Py.any _); [|discriminate].
  destruct (raises _); [discriminate|].
  intros _. apply andb_false_r.
Qed.

(** *** The handler *)

Lemma on_created_pipeline_spec (env : Env) (dest_path created_time : string)
    (w : World) :
  exists r w',
    on_created_pipeline env dest_path created_time w = (r, w')
    /\ files w' = files w
    /\ queue_file w' = queue_file w
    /\ grows is_queue_write (events w) (events w')
    /\ (forall e, r = Raise e -> grows is_sink_call (events w) (events w')).
Proof.
  unfold on_created_pipeline, is_connected, upload_pdf_to_s3, extract_kvs,
    try_except, bind, makedirs, s3_upload_file, call, log, emit, ret, raise.
  crunch_with ltac:(idtac;
    match goal with
    | |- context [Py.truthy (s3_key_of ?e ?p ?c)] =>
        rewrite (s3_key_of_truthy e p c)
    | |- context [save_to_excel ?e ?d ?f ?w] =>
        let w' := fresh "w" in
        destruct (save_to_excel_quiet e d f w) as (w' & -> & ? & ? & ?)
    end); cbn in *;
    do 2 eexists; (split; [reflexivity|]); cbn;
    (split; [congruence|]); (split; [congruence|]); split.
  all: try grown.
  all: try (eapply grows_trans; [|eassumption]; grown).
  all: try (intros ? [=]).
  all: intros; grown.
Qed.

Lemma on_created_sink_reached (env : Env) (self : PDFHandler)
    (event : FsEvent) (w : World) :
  sink_called (events w) = false ->
  sink_called (events (snd (on_created env self event w))) = true ->
  fst (on_created env self event w) = Ret tt
  /\ queue_file (snd (on_created env self event w)) = queue_file w
  /\ queue_written (events (snd (on_created env self event w)))
     = queue_written (events w).
Proof.
  unfold on_created, try_except, on_created_try, on_created_except, lift,
    bind_dest_path, bind_created_time, read_local, move, move_blocked,
    path_exists, chmod, lp, makedirs, load_failed_uploads,
    save_failed_uploads, bind, call, log, emit, ret, raise, sink_called,
    queue_written.
  intros Hw.
  crunch_with ltac:(idtac;
    match goal with
    | |- context [on_created_pipeline ?e ?d ?c ?w] =>
        let r := fresh "r" in
        let w' := fresh "w" in
        destruct (on_created_pipeline_spec e d c w)
          as (r & w' & -> & ? & ? & ? & ?)
    end); cbn in *; intros Hs.
  all: try congruence.
  all: try (match goal with
            | H : forall e, Raise ?x = Raise e -> _ |- _ =>
                specialize (H x eq_refl); apply grows_existsb in H;
                cbn in H; congruence
            end).
  all: repeat match goal with a : unit |- _ => destruct a end.
  all: repeat split; try congruence.
  all: match goal with
       | H : grows is_queue_write _ _ |- _ =>
           apply grows_existsb in H; cbn in H; exact H
       end.
Qed.

Lemma on_created_file_gone (env : Env) (self : PDFHandler) (event : FsEvent)
    (w : World) :
  is_directory event = false ->
  Py.endswith (src_path event) ".pdf" = true ->
  makedirs_raises env (Py.join (output_dir self) (now_folder env)) = None ->
  existsb (String.eqb (src_path event)) (files w) = false ->
  queue_file w <> Some Corrupt ->
  fst (on_created env self event w) = Raise (UnboundLocalError "created_time").
Proof.
  unfold on_created, try_except, on_created_try, on_created_except, lift,
    bind_dest_path, bind_created_time, read_local, move, move_blocked,
    path_exists, chmod, lp, makedirs, load_failed_uploads,
    save_failed_uploads, bind, call, log, emit, ret, raise.
  intros -> -> -> Hgone Hq. cbn.
  destruct (isdir env _); cbn; [destruct (_ || _); cbn|];
    rewrite ?Hgone; cbn;
    destruct (queue_file w) as [[|items]|]; [congruence| | ..];
    try congruence; reflexivity.
Qed.

Lemma retry_blank_extraction (env : Env) (s3_key : string) (w : World) :
  analyze env AWS_BUCKET_NAME s3_key = Ret [] ->
  retry_extract_and_record env s3_key w
  = emit (Textract AWS_BUCKET_NAME s3_key) w.
Proof.
  intros H. unfold retry_extract_and_record, extract_kvs, bind.
  cbn. rewrite H. reflexivity.
Qed.

(** ** Claims about sink failures, the drain pass and empty extractions *)

(** C1, as the code has it: at these inputs the Record Sink fails (the
    spreadsheet cannot be written, or its copy to S3 fails) after the
    handler or the retry pass has called it; the failure is logged, the
    handler returns normally with no queue file written, and the retry
    pass drops the item from the queue it rebuilds. *)
Lemma sink_failure_is_not_enqueued :
  let fresh := on_created env_sheet_locked handler0 pdf_event world0 in
  let retry := retry_failed_uploads env_sheet_locked world_queued in
  let fresh_m := on_created env_mirror_down handler0 pdf_event world0 in
  sink_write_raises env_sheet_locked world0 (Py.join excel_dir "invoices.xlsx")
  = Some permission_denied
  /\ sink_called (events (snd fresh)) = true
  /\ In (Log ERROR "🚨 Error saving Excel: Permission denied")
        (events (snd fresh))
  /\ fst fresh = Ret tt
  /\ queue_file (snd fresh) = None
  /\ queue_written (events (snd fresh)) = false
  /\ sink_called (events (snd retry)) = true
  /\ queue_items (snd retry) = []
  /\ sink_mirror_raises env_mirror_down (Py.join excel_dir "invoices.xlsx")
     = Some (ClientError "AccessDenied")
  /\ fst fresh_m = Ret tt
  /\ queue_file (snd fresh_m) = None.
Proof.
  cbv zeta.
  repeat match goal with
         | |- _ /\ _ => split
         | |- In _ _ => vm_compute; tauto
         | |- _ = _ => vm_compute; reflexivity
         end.
Qed.

(** C1, amended: a failure of the Record Sink never leaves
    [save_to_excel]: the call returns normally, logs the failure at error
    level and does not touch the failure queue.  Hence whenever the handler
    has called the sink it returns normally and leaves the queue file as it
    was (the document is not enqueued), and whenever the retry of a queued
    item reaches the sink the item is absent from the rebuilt queue. *)
Theorem sink_failure_is_absorbed :
  (forall env data file w,
      fst (save_to_excel env data file w) = Ret tt
      /\ queue_file (snd (save_to_excel env data file w)) = queue_file w
      /\ queue_written (events (snd (save_to_excel env data file w)))
         = queue_written (events w))
  /\ (forall env data file w e,
        sink_write_raises env w file = Some e ->
        In (Log ERROR ("🚨 Error saving Excel: " ++ exn_str e))
           (events (snd (save_to_excel env data file w))))
  /\ (forall env data file w e,
        sink_write_raises env w file = None ->
        sink_mirror_raises env file = Some e ->
        In (Log ERROR ("❌ Failed to upload Excel to S3: " ++ exn_str e))
           (events (snd (save_to_excel env data file w))))
  /\ (forall env self event w,
        sink_called (events w) = false ->
        sink_called (events (snd (on_created env self event w))) = true ->
        fst (on_created env self event w) = Ret tt
        /\ queue_file (snd (on_created env self event w)) = queue_file w
        /\ queue_written (events (snd (on_created env self event w)))
           = queue_written (events w))
  /\ (forall env w it,
        connected env = true ->
        queue_file w <> Some Corrupt ->
        In it (queue_items w) ->
        reaches_sink env it = true ->
        fst (retry_failed_uploads env w) = Ret tt
        /\ ~ In it (queue_items (snd (retry_failed_uploads env w)))).
Proof.
  split.
  { intros env data file w.
    destruct (save_to_excel_quiet env data file w) as (w' & -> & _ & Q & G).
    cbn. repeat split; [exact Q|]. apply grows_existsb. exact G. }
  split.
  { intros env data file w e H.
    destruct (@save_to_excel_write_failure env data file w e H)
      as (w' & l & E1 & E2 & _).
    rewrite E1. cbn [snd]. rewrite E2. apply in_eq. }
  split.
  { intros env data file w e H1 H2.
    destruct (@save_to_excel_mirror_failure env data file w e H1 H2)
      as (w' & l & E1 & E2 & _).
    rewrite E1. cbn [snd]. rewrite E2. apply in_eq. }
  split; [exact on_created_sink_reached|].
  intros env w it Hon Hq Hin Hsink.
  destruct (@retry_failed_uploads_spec env w Hon Hq) as (w' & l & -> & Q & _).
  cbn. split; [reflexivity|].
  unfold queue_items at 1. rewrite Q. intros Hkept.
  apply filter_In in Hkept as [_ Hkept].
  rewrite (@reaches_sink_not_failed env w it Hsink) in Hkept. discriminate.
Qed.

Lemma sink_failure_is_absorbed_witness :
  (fst (on_created env_sheet_locked handler0 pdf_event world0) = Ret tt
   /\ queue_file (snd (on_created env_sheet_locked handler0 pdf_event world0))
      = None)
  /\ ~ In item_invoice
         (queue_items (snd (retry_failed_uploads env_sheet_locked world_queued))).
Proof.
  destruct sink_failure_is_absorbed as (_ & _ & _ & Hfresh & Hretry).
  split.
  - destruct (Hfresh env_sheet_locked handler0 pdf_event world0)
      as (H1 & H2 & _); [reflexivity | vm_compute; reflexivity |].
    split; [exact H1 | exact H2].
  - apply (Hretry env_sheet_locked world_queued item_invoice).
    + reflexivity.
    + discriminate.
    + left. reflexivity.
    + vm_compute. reflexivity.
Defined.




(** C6: on the retry path an extraction with every field empty logs no
    warning.  The pass returns, calls no sink and drops the item, and its
    trace holds no warning at all; the handler, on the same extraction,
    logs "No valid data extracted." *)
Theorem retry_blank_extraction_logs_nothing :
  let retry := retry_failed_uploads env_blank world_queued in
  let fresh := on_created env_blank handler0 pdf_event world0 in
  Py.any (values (extract_invoice_fields [])) = false
  /\ fst retry = Ret tt
  /\ sink_called (events (snd retry)) = false
  /\ queue_items (snd retry) = []
  /\ warned (events (snd retry)) = false
  /\ fst fresh = Ret tt
  /\ sink_called (events (snd fresh)) = false
  /\ queue_written (events (snd fresh)) = false
  /\ In (Log WARNING "⚠️ No valid data extracted.") (events (snd fresh)).
Proof.
  cbv zeta.
  repeat match goal with
         | |- _ /\ _ => split
         | |- In _ _ => vm_compute; tauto
         | |- _ = _ => vm_compute; reflexivity
         end.
Qed.

(** ** Upload keys of the first attempt and of the retry *)

Lemma uploads_to_cons (bucket : string) (e : Event) (l : list Event) :
  uploads_to bucket (e :: l) = (uploads_to bucket l ++ upload_key bucket e)%list.
Proof.
  unfold uploads_to. cbn [rev]. rewrite flat_map_app. cbn [flat_map].
  rewrite app_nil_r. reflexivity.
Qed.

Arguments uploads_to : simpl never.

Lemma save_to_excel_keeps_uploads (env : Env) (data : dict string)
    (file : string) (w : World) :
  exists w',
    save_to_excel env data file w = (Ret tt, w')
    /\ files w' = files w
    /\ queue_file w' = queue_file w
    /\ uploads_to AWS_BUCKET_NAME (events w')
       = uploads_to AWS_BUCKET_NAME (events w).
Proof.
  unfold save_to_excel, try_except, bind, makedirs, sheet_exists, read_excel,
    to_excel, s3_upload_file, call, log, emit, ret, raise.
  crunch; eexists; (split; [reflexivity|]); cbn; repeat split;
    rewrite !uploads_to_cons; cbn; rewrite ?app_nil_r; reflexivity.
Qed.

Lemma on_created_pipeline_run (env : Env) (dest_path t : string) (w : World) :
  let it := {| path := dest_path; created_time := Some t |} in
  exists r w',
    on_created_pipeline env dest_path t w = (r, w')
    /\ files w' = files w
    /\ queue_file w' = queue_file w
    /\ raised r
       = (negb (connected env) || upload_failed env it
          || extraction_failed env it || record_dir_failed env it)
    /\ uploads_to AWS_BUCKET_NAME (events w')
       = (uploads_to AWS_BUCKET_NAME (events w)
            ++ if connected env && negb (upload_failed env it)
               then [s3_key_of env dest_path (Some t)] else [])%list.
Proof.
  cbv zeta.
  unfold on_created_pipeline, is_connected, upload_pdf_to_s3, extract_kvs,
    try_except, bind, makedirs, s3_upload_file, call, log, emit, ret, raise,
    upload_failed, extraction_failed, record_dir_failed, raises.
  cbn [path created_time].
  crunch_with ltac:(idtac;
    match goal with
    | |- context [Py.truthy (s3_key_of ?e ?p ?c)] =>
        rewrite (s3_key_of_truthy e p c)
    | |- context [save_to_excel ?e ?d ?f ?w] =>
        let w' := fresh "w" in
        destruct (save_to_excel_keeps_uploads e d f w) as (w' & -> & ? & ? & ?)
    end); cbn in *;
    do 2 eexists; (split; [reflexivity|]); cbn;
    (split; [congruence|]); (split; [congruence|]);
    (split; [reflexivity|]);
    rewrite ?uploads_to_cons; cbn; rewrite ?String.eqb_refl, ?app_nil_r;
    try congruence.
  match goal with
  | H : uploads_to _ (events ?x) = _ |- context [uploads_to _ (events ?x)] =>
      rewrite H
  end.
  rewrite ?uploads_to_cons; cbn; rewrite ?String.eqb_refl, ?app_nil_r.
  reflexivity.
Qed.

Lemma on_created_relocated_run (env : Env) (self : PDFHandler)
    (event : FsEvent) (w : World) :
  is_directory event = false ->
  Py.endswith (src_path event) ".pdf" = true ->
  makedirs_raises env (Py.join (output_dir self) (now_folder env)) = None ->
  existsb (String.eqb (src_path event)) (files w) = true ->
  move_refused env w (src_path event) (dest_path_of env self event) = false ->
  move_raises env (src_path event) (dest_path_of env self event) = None ->
  chmod_raises env (dest_path_of env self event) = None ->
  queue_file w <> Some Corrupt ->
  exists w',
    on_created env self event w = (Ret tt, w')
    /\ queue_file w'
       = (if processing_failed env self event
          then Some (Persisted (queue_items w ++ [item_of env self event])%list)
          else queue_file w)
    /\ files w'
       = move_target env (src_path event) (dest_path_of env self event)
         :: remove_file (src_path event) (files w)
    /\ uploads_to AWS_BUCKET_NAME (events w')
       = (uploads_to AWS_BUCKET_NAME (events w)
            ++ if first_upload_made env self event
               then [s3_key_of env (dest_path_of env self event)
                       (Some (now_stamp env))]
               else [])%list.
Proof.
  unfold on_created, try_except, on_created_try, on_created_except, lift,
    bind_dest_path, bind_created_time, read_local, move, move_blocked,
    path_exists, chmod, lp, makedirs, load_failed_uploads,
    save_failed_uploads, bind, call, log, emit, ret, raise, move_refused,
    processing_failed, first_upload_made, forward_failed, item_of,
    dest_path_of, queue_items, raises.
  intros -> -> -> Hpresent Hfree -> -> Hq. cbn.
  assert (Hblocked :
    (if isdir env (Py.join (Py.join (output_dir self) (now_folder env))
                     (Py.split_head (Py.basename (src_path event)) "__"))
     then
       existsb
         (String.eqb
            (move_target env (src_path event)
               (Py.join (Py.join (output_dir self) (now_folder env))
                  (Py.split_head (Py.basename (src_path event)) "__"))))
         (files w)
       || isdir env
            (move_target env (src_path event)
               (Py.join (Py.join (output_dir self) (now_folder env))
                  (Py.split_head (Py.basename (src_path event)) "__")))
     else false) = false).
  { destruct (isdir env _); [exact Hfree | reflexivity]. }
  destruct (isdir env (Py.join (Py.join (output_dir self) (now_folder env))
                         (Py.split_head (Py.basename (src_path event)) "__")));
    cbn; rewrite ?Hblocked; cbn; rewrite Hpresent; cbn.
  all: destruct (physical_printer self) as [printer|]; cbn.
  all: try (destruct (Py.truthy printer); cbn).
  all: try (destruct (lp_raises env printer _); cbn).
  all: repeat match goal with
         | |- context [on_created_pipeline ?e ?d ?c ?w] =>
             let r := fresh "r" in
             let w' := fresh "w" in
             destruct (on_created_pipeline_run e d c w)
               as (r & w' & -> & ? & ? & ? & ?); cbn in *
         end.
  all: try match goal with r : Result unit |- _ => destruct r as [[]|?] end.
  all: cbn in *.
  all: repeat match goal with
         | H : queue_file ?x = queue_file _ |- context [queue_file ?x] =>
             rewrite H
         end.
  all: destruct (queue_file w) as [[|items]|]; [congruence| |]; cbn in *.
  all: eexists; (split; [reflexivity|]); cbn.
  all: repeat match goal with
         | H : true = _ |- _ => rewrite <- H
         | H : false = _ |- _ => rewrite <- H
         | H : queue_file _ = _ |- _ => rewrite H
         | H : files _ = _ |- _ => rewrite H
         | H : uploads_to _ (events ?x) = _ |- _ => rewrite ?uploads_to_cons, H
         end.
  all: rewrite ?uploads_to_cons; cbn; rewrite ?app_nil_r.
  all: repeat split.
Qed.

Lemma retry_item_uploads (env : Env) (it : Item) (sf : list Item) (w : World) :
  uploads_to AWS_BUCKET_NAME (events (snd (retry_item env it sf w)))
  = (uploads_to AWS_BUCKET_NAME (events w)
       ++ if retry_upload_made env w it
          then [s3_key_of env (path it) (created_time it)] else [])%list.
Proof.
  unfold retry_item, retry_upload_made, file_present, upload_failed, raises,
    path_exists, upload_pdf_to_s3, retry_extract_and_record, extract_kvs,
    try_except, bind, makedirs, s3_upload_file, call, log, emit, ret, raise.
  crunch_with ltac:(idtac;
    match goal with
    | |- context [Py.truthy (s3_key_of ?e ?p ?c)] =>
        rewrite (s3_key_of_truthy e p c)
    | |- context [save_to_excel ?e ?d ?f ?w] =>
        let w' := fresh "w" in
        destruct (save_to_excel_keeps_uploads e d f w) as (w' & -> & ? & ? & ?)
    end); cbn in *;
    repeat match goal with
           | H : uploads_to _ (events ?x) = _ |- _ =>
               rewrite ?uploads_to_cons, H
           end;
    rewrite ?uploads_to_cons; cbn; rewrite ?String.eqb_refl, ?app_nil_r;
    reflexivity.
Qed.

Lemma retry_upload_made_files (env : Env) (w w' : World) (it : Item) :
  files w' = files w ->
  retry_upload_made env w' it = retry_upload_made env w it.
Proof.
  intros H. unfold retry_upload_made, file_present. rewrite H. reflexivity.
Qed.

Lemma retry_loop_uploads (env : Env) (items : list Item) :
  forall (sf : list Item) (w : World),
    uploads_to AWS_BUCKET_NAME (events (snd (retry_loop env items sf w)))
    = (uploads_to AWS_BUCKET_NAME (events w)
         ++ map (fun it => s3_key_of env (path it) (created_time it))
              (filter (retry_upload_made env w) items))%list.
Proof.
  induction items as [|item rest IH]; intros sf w.
  - cbn. rewrite app_nil_r. reflexivity.
  - pose proof (retry_item_uploads env item sf w) as U.
    destruct (retry_item_spec env item sf w) as (w1 & E1 & F1 & _).
    rewrite E1 in U. cbn [snd] in U.
    cbn [retry_loop]. unfold bind. rewrite E1, IH, U.
    rewrite (filter_ext _ _
               (fun it => retry_upload_made_files env w w1 it F1)).
    cbn [filter]. destruct (retry_upload_made env w item);
      cbn [map]; rewrite <- app_assoc; reflexivity.
Qed.

Lemma retry_failed_uploads_uploads (env : Env) (w : World) :
  connected env = true ->
  queue_file w <> Some Corrupt ->
  uploads_to AWS_BUCKET_NAME (events (snd (retry_failed_uploads env w)))
  = (uploads_to AWS_BUCKET_NAME (events w)
       ++ map (fun it => s3_key_of env (path it) (created_time it))
            (filter (retry_upload_made env w) (queue_items w)))%list.
Proof.
  intros Hon Hq.
  unfold retry_failed_uploads, bind, is_connected, ret, load_failed_uploads,
    queue_items, save_failed_uploads, emit.
  rewrite Hon. cbn.
  destruct (queue_file w) as [[|items]|] eqn:Q; [congruence| |]; cbn.
  - match goal with
    | |- context [retry_loop env items [] ?w1] =>
        pose proof (retry_loop_uploads env items [] w1) as U;
        destruct (retry_loop env items [] w1) as [[sf|e] w2]
    end; cbn in *; rewrite ?uploads_to_cons, U, ?uploads_to_cons; cbn;
      rewrite ?app_nil_r; reflexivity.
  - rewrite uploads_to_cons. reflexivity.
Qed.


(** C4: a queued item that carries a non-empty [created_time] is uploaded
    by the retry pass under [{date part}/{created_time}_{basename(path)}],
    whatever the clock says by then, and that is the key of the original
    attempt: the handler uploads the relocated document under this key,
    computed from the destination path and the timestamp it has just
    taken, and when processing fails it queues that path with that
    timestamp.  The uploads of a retry pass are those of the queued items
    whose file is present and whose upload goes through, in queue order,
    each under the key of its own path and [created_time]. *)
Theorem retry_uploads_under_original_key (env_first env_retry : Env)
    (self : PDFHandler) (event : FsEvent) (w w_r : World) :
  is_directory event = false ->
  Py.endswith (src_path event) ".pdf" = true ->
  makedirs_raises env_first (Py.join (output_dir self) (now_folder env_first))
  = None ->
  existsb (String.eqb (src_path event)) (files w) = true ->
  move_refused env_first w (src_path event) (dest_path_of env_first self event)
  = false ->
  move_raises env_first (src_path event) (dest_path_of env_first self event)
  = None ->
  chmod_raises env_first (dest_path_of env_first self event) = None ->
  queue_file w <> Some Corrupt ->
  now_stamp env_first <> "" ->
  connected env_retry = true ->
  queue_file w_r <> Some Corrupt ->
  let it := item_of env_first self event in
  let w1 := snd (on_created env_first self event w) in
  let w2 := snd (retry_failed_uploads env_retry w_r) in
  uploads_to AWS_BUCKET_NAME (events w1)
  = (uploads_to AWS_BUCKET_NAME (events w)
       ++ if first_upload_made env_first self event
          then [stored_key it] else [])%list
  /\ queue_items w1
     = (queue_items w
          ++ if processing_failed env_first self event then [it] else [])%list
  /\ uploads_to AWS_BUCKET_NAME (events w2)
     = (uploads_to AWS_BUCKET_NAME (events w_r)
          ++ map (fun i => s3_key_of env_retry (path i) (created_time i))
               (filter (retry_upload_made env_retry w_r)
                  (queue_items w_r)))%list
  /\ (forall i t,
        created_time i = Some t ->
        t <> "" ->
        s3_key_of env_retry (path i) (created_time i) = stored_key i)
  /\ (forall i t,
        In i (queue_items w_r) ->
        created_time i = Some t ->
        t <> "" ->
        retry_upload_made env_retry w_r i = true ->
        In (stored_key i) (uploads_to AWS_BUCKET_NAME (events w2))).
Proof.
  intros Hdir Hpdf Hmk Hpresent Hfree Hmv Hch Hq Hstamp Hon Hqr.
  destruct (@on_created_relocated_run env_first self event w Hdir Hpdf Hmk
              Hpresent Hfree Hmv Hch Hq) as (w1 & E1 & Q1 & _ & U1).
  assert (Hkey : forall env i t,
             created_time i = Some t -> t <> "" ->
             s3_key_of env (path i) (created_time i) = stored_key i).
  { intros env i t Hct Ht. unfold stored_key. rewrite Hct.
    apply s3_key_of_stamped. exact Ht. }
  cbv zeta. rewrite E1. cbn [snd].
  rewrite (@retry_failed_uploads_uploads env_retry w_r Hon Hqr).
  split.
  { rewrite U1. rewrite <- (Hkey env_first (item_of env_first self event)
                             (now_stamp env_first) eq_refl Hstamp).
    reflexivity. }
  split.
  { unfold queue_items at 1. rewrite Q1.
    destruct (processing_failed env_first self event);
      [reflexivity | rewrite app_nil_r; reflexivity]. }
  split; [reflexivity|].
  split; [exact (Hkey env_retry)|].
  intros i t Hin Hct Ht Hmade.
  apply in_or_app. right.
  rewrite <- (Hkey env_retry i t Hct Ht).
  apply (in_map (fun i => s3_key_of env_retry (path i) (created_time i))).
  apply filter_In. split; assumption.
Qed.

Lemma retry_uploads_under_original_key_witness :
  let first := snd (on_created env_textract_down handler0 pdf_event world0) in
  let second := snd (retry_failed_uploads env_next_day first) in
  uploads_to AWS_BUCKET_NAME (events first)
  = ["2024-05-01/2024-05-01_10-00-00_invoice"]
  /\ queue_items first = [item_invoice]
  /\ In "2024-05-01/2024-05-01_10-00-00_invoice"
        (uploads_to AWS_BUCKET_NAME (events second)).
Proof.
  cbv zeta.
  destruct (@retry_uploads_under_original_key env_textract_down env_next_day
              handler0 pdf_event world0
              (snd (on_created env_textract_down handler0 pdf_event world0))
              eq_refl eq_refl eq_refl eq_refl eq_refl eq_refl eq_refl)
    as (U1 & Q1 & _ & _ & U2).
  - discriminate.
  - discriminate.
  - reflexivity.
  - vm_compute. discriminate.
  - split; [exact U1|]. split; [exact Q1|].
    apply (U2 item_invoice "2024-05-01_10-00-00").
    + vm_compute. left. reflexivity.
    + reflexivity.
    + discriminate.
    + reflexivity.
Defined.

(** Once a document is relocated, [on_created] returns normally and the
    queue gains exactly one item for it (its destination path and the
    timestamp taken after the move) when forwarding raises, the machine is
    offline, the upload fails, the extraction raises or the spreadsheet
    directory cannot be created; otherwise the queue file is left as it
    was.  The document leaves its source path for the place [shutil.move]
    gives it: the destination path, or inside it under its own name when
    the destination path is an existing directory. *)
Theorem on_created_enqueues_once (env : Env) (self : PDFHandler)
    (event : FsEvent) (w : World) :
  is_directory event = false ->
  Py.endswith (src_path event) ".pdf" = true ->
  makedirs_raises env (Py.join (output_dir self) (now_folder env)) = None ->
  existsb (String.eqb (src_path event)) (files w) = true ->
  move_refused env w (src_path event) (dest_path_of env self event) = false ->
  move_raises env (src_path event) (dest_path_of env self event) = None ->
  chmod_raises env (dest_path_of env self event) = None ->
  queue_file w <> Some Corrupt ->
  let w' := snd (on_created env self event w) in
  fst (on_created env self event w) = Ret tt
  /\ queue_items w'
     = (queue_items w
          ++ if processing_failed env self event
             then [item_of env self event] else [])%list
  /\ (processing_failed env self event = false ->
      queue_file w' = queue_file w)
  /\ files w'
     = move_target env (src_path event) (dest_path_of env self event)
       :: remove_file (src_path event) (files w)
  /\ (isdir env (dest_path_of env self event) = false ->
      files w'
      = dest_path_of env self event :: remove_file (src_path event) (files w)).
Proof.
  intros Hdir Hpdf Hmk Hpresent Hfree Hmv Hch Hq.
  destruct (@on_created_relocated_run env self event w Hdir Hpdf Hmk
              Hpresent Hfree Hmv Hch Hq) as (w1 & E1 & Q1 & F1 & _).
  cbv zeta. rewrite E1. cbn [fst snd].
  split; [reflexivity|]. split; [|split; [|split]].
  - unfold queue_items at 1. rewrite Q1.
    destruct (processing_failed env self event);
      [reflexivity | rewrite app_nil_r; reflexivity].
  - intros Hok. rewrite Q1, Hok. reflexivity.
  - exact F1.
  - intros Hfile. rewrite F1. unfold move_target. rewrite Hfile. reflexivity.
Qed.

Lemma on_created_enqueues_once_witness :
  queue_items (snd (on_created env_offline handler0 pdf_event world0))
  = [item_invoice]
  /\ files (snd (on_created env_dated_folder handler0 unnamed_event
                   world_unnamed))
     = ["/home/u/PDF_Prints/2024/05/01/__x.pdf"].
Proof.
  split.
  - refine (proj1 (proj2 (@on_created_enqueues_once env_offline handler0
                            pdf_event world0 eq_refl eq_refl eq_refl eq_refl
                            eq_refl eq_refl eq_refl _))).
    discriminate.
  - refine (proj1 (proj2 (proj2 (proj2
              (@on_created_enqueues_once env_dated_folder handler0
                 unnamed_event world_unnamed eq_refl eq_refl eq_refl eq_refl
                 eq_refl eq_refl eq_refl _))))).
    discriminate.
Defined.

(** ** Further properties of the pipeline *)

(** [upload_pdf_to_s3] never raises: an exception of the upload call is
    logged at error level and answered with [None]; a successful call
    answers with the key.  It leaves documents, queue and spreadsheets as
    they were. *)
Theorem upload_pdf_to_s3_total (env : Env) (pdf_path : string)
    (created_time : option string) (w : World) :
  let key := s3_key_of env pdf_path created_time in
  let r := upload_pdf_to_s3 env pdf_path created_time w in
  files (snd r) = files w
  /\ queue_file (snd r) = queue_file w
  /\ sheets (snd r) = sheets w
  /\ match s3_upload_raises env pdf_path AWS_BUCKET_NAME key with
     | None =>
         fst r = Ret (Some key)
         /\ events (snd r)
            = Log INFO ("✅ Uploaded to S3: " ++ key)
              :: S3Upload pdf_path AWS_BUCKET_NAME key :: events w
     | Some e =>
         fst r = Ret None
         /\ exists msg, events (snd r) = Log ERROR msg :: events w
     end.
Proof.
  cbv zeta.
  unfold upload_pdf_to_s3, try_except, bind, s3_upload_file, call, log, emit,
    ret, raise.
  destruct (s3_upload_raises env pdf_path AWS_BUCKET_NAME
              (s3_key_of env pdf_path created_time)) as [[]|]; cbn;
    repeat split; eauto.
Qed.

(** When the machine is offline the handler makes no call to S3, to
    Textract or to the spreadsheet. *)
Theorem offline_handler_stays_local (env : Env) (self : PDFHandler)
    (event : FsEvent) (w : World) :
  connected env = false ->
  existsb is_remote_call (events w) = false ->
  existsb is_remote_call (events (snd (on_created env self event w))) = false.
Proof.
  unfold on_created, try_except, on_created_try, on_created_except,
    on_created_pipeline, lift, bind_dest_path, bind_created_time, read_local,
    move, move_blocked, path_exists, chmod, lp, makedirs, is_connected,
    load_failed_uploads, save_failed_uploads, bind, try_except, call, log,
    emit, ret, raise.
  intros -> Hw. crunch; exact Hw.
Qed.

Lemma offline_handler_stays_local_witness :
  existsb is_remote_call
    (events (snd (on_created env_offline handler0 pdf_event world0))) = false.
Proof. apply offline_handler_stays_local; reflexivity. Defined.

(** When the spreadsheet write goes through, [save_to_excel] leaves the
    sheet with the rows [pandas.read_excel] gave for it, re-typed as
    pandas reads them, followed by the new record, and the other sheets as
    they were, also when the copy to S3 then fails; when the write raises,
    every sheet is as before. *)
Theorem save_to_excel_appends (env : Env) (data : dict string)
    (file : string) (w : World) :
  let w' := snd (save_to_excel env data file w) in
  (sink_write_raises env w file = None ->
   getitem (sheets w') file = Some (rows_read env w file ++ [data])%list
   /\ forall other, other <> file ->
                    getitem (sheets w') other = getitem (sheets w) other)
  /\ (forall e, sink_write_raises env w file = Some e -> sheets w' = sheets w).
Proof.
  cbv zeta.
  unfold sink_write_raises, rows_read, save_to_excel, try_except, bind,
    makedirs, sheet_exists, read_excel, to_excel, s3_upload_file, call, log,
    emit, ret, raise.
  crunch;
    repeat match goal with
           | H : Some _ = Some _ |- _ => injection H as H; subst
           end;
    split; try discriminate; try reflexivity; intros;
    try discriminate; try reflexivity;
    (split; [apply getitem_setitem_same
            | intros other Hne; apply getitem_setitem_other; exact Hne]).
Qed.

Lemma save_to_excel_appends_witness :
  getitem
    (sheets (snd (save_to_excel env_retypes [("Invoice Number", "INV-2")]
                    "/home/mobicloud/Excel_Files/invoices.xlsx" world_sheet)))
    "/home/mobicloud/Excel_Files/invoices.xlsx"
  = Some [[("Invoice Number", "123")]; [("Invoice Number", "INV-2")]].
Proof.
  apply (proj1 (@save_to_excel_appends env_retypes
                  [("Invoice Number", "INV-2")]
                  "/home/mobicloud/Excel_Files/invoices.xlsx" world_sheet)).
  reflexivity.
Defined.

Lemma filter_idem {A} (f : A -> bool) (l : list A) :
  filter f (filter f l) = filter f l.
Proof.
  induction l as [|x l IH]; simpl; [reflexivity|].
  destruct (f x) eqn:E; simpl; rewrite ?E, IH; reflexivity.
Qed.

(** A drain pass never adds to the queue and never touches the documents;
    a second pass right after the first, with the collaborators answering
    as before, leaves the queue as the first pass left it. *)
Theorem drain_twice (env : Env) (w : World) :
  connected env = true ->
  queue_file w <> Some Corrupt ->
  let w1 := snd (retry_failed_uploads env w) in
  let w2 := snd (retry_failed_uploads env w1) in
  queue_file w2 = queue_file w1
  /\ files w2 = files w
  /\ (forall it, In it (queue_items w1) -> In it (queue_items w)).
Proof.
  intros Hon Hq.
  destruct (@retry_failed_uploads_spec env w Hon Hq)
    as (w1 & l1 & E1 & Q1 & F1 & _).
  assert (Hq1 : queue_file w1 <> Some Corrupt) by (rewrite Q1; discriminate).
  destruct (@retry_failed_uploads_spec env w1 Hon Hq1)
    as (w2 & l2 & E2 & Q2 & F2 & _).
  cbv zeta. rewrite E1. cbn [snd]. rewrite E2. cbn [snd].
  split; [|split].
  - rewrite Q2, Q1. unfold queue_items at 1. rewrite Q1.
    rewrite (filter_ext _ _ (fun it => still_failed_after_files env w w1 it F1)).
    rewrite filter_idem. reflexivity.
  - congruence.
  - intros it. unfold queue_items at 1. rewrite Q1. intros Hin.
    apply filter_In in Hin as [Hin _]. exact Hin.
Qed.

Lemma drain_twice_witness :
  queue_file
    (snd (retry_failed_uploads env_b_fails
            (snd (retry_failed_uploads env_b_fails world_three))))
  = queue_file (snd (retry_failed_uploads env_b_fails world_three)).
Proof.
  destruct (@drain_twice env_b_fails world_three) as (H & _).
  - reflexivity.
  - discriminate.
  - exact H.
Defined.

(** A queue file that [json.load] rejects makes the retry pass raise
    before any item is attempted, and makes the handler raise from its
    [except] clause when it has a document to queue: the queue file is
    left as it is and the document is not queued. *)
Theorem corrupt_queue_file_raises (env : Env) (w : World) :
  queue_file w = Some Corrupt ->
  (connected env = true ->
   exists msg,
     retry_failed_uploads env w
     = (Raise (JSONDecodeError msg),
        {| files := files w; queue_file := queue_file w; sheets := sheets w;
           events := QueueRead :: events w |}))
  /\ (forall self event,
        connected env = false ->
        is_directory event = false ->
        Py.endswith (src_path event) ".pdf" = true ->
        exists msg,
          fst (on_created env self event w) = Raise (JSONDecodeError msg)
          /\ queue_file (snd (on_created env self event w)) = Some Corrupt).
Proof.
  intros Hq. split.
  - intros Hon. unfold retry_failed_uploads, bind, is_connected, ret,
      load_failed_uploads, emit, raise.
    rewrite Hon. cbn. rewrite !Hq. cbn. eauto.
  - intros self event Hoff Hdir Hpdf.
    unfold on_created, try_except, on_created_try, on_created_except,
      on_created_pipeline, lift, bind_dest_path, bind_created_time,
      read_local, move, move_blocked, path_exists, chmod, lp, makedirs,
      is_connected, load_failed_uploads, save_failed_uploads, bind,
      try_except, call, log, emit, ret, raise.
    rewrite Hoff, Hdir, Hpdf. crunch; rewrite ?Hq in *; try discriminate;
      repeat match goal with
             | H : Some _ = Some _ |- _ => injection H as H; subst
             end;
      try discriminate; eauto.
Qed.

Lemma corrupt_queue_file_raises_witness :
  exists msg,
    fst (retry_failed_uploads env_ok world_corrupt)
    = Raise (JSONDecodeError msg).
Proof.
  destruct (@corrupt_queue_file_raises env_ok world_corrupt eq_refl)
    as [H _].
  destruct (H eq_refl) as [msg E]. exists msg. rewrite E. reflexivity.
Defined.

(** ** Retention purge *)

Lemma in_remove_file (p q : string) (l : list string) :
  In q (remove_file p l) <-> In q l /\ q <> p.
Proof.
  unfold remove_file. rewrite filter_In. split; intros [H1 H2]; split; auto.
  - intros ->. rewrite String.eqb_refl in H2. discriminate.
  - apply negb_true_iff, String.eqb_neq. congruence.
Qed.

Lemma purge_file_run (disk : Disk) (cutoff : Z) (root file : string)
    (w : World) :
  exists w',
    purge_file disk cutoff root file w = (Ret tt, w')
    /\ queue_file w' = queue_file w
    /\ sheets w' = sheets w
    /\ (files w' = files w
        \/ (files w' = remove_file (Py.join root file) (files w)
            /\ purgeable disk cutoff (Py.join root file))).
Proof.
  unfold purge_file, getmtime_of, remove, path_exists, try_except, bind, log,
    emit, ret, raise, purgeable.
  crunch; eexists; (split; [reflexivity|]); cbn; repeat split; auto.
  right. split; [reflexivity|]. split; [apply endswith_join; assumption|].
  eexists. repeat split; eauto. apply Z.ltb_lt. assumption.
Qed.

Lemma purge_file_removes (disk : Disk) (cutoff : Z) (root file : string)
    (mtime : Z) (w : World) :
  Py.endswith file ".pdf" = true ->
  getmtime disk (Py.join root file) = Ret mtime ->
  (mtime < cutoff)%Z ->
  remove_raises disk (Py.join root file) = None ->
  ~ In (Py.join root file) (files (snd (purge_file disk cutoff root file w))).
Proof.
  intros Hpdf Hm Hold Hrm.
  unfold purge_file, getmtime_of, remove, path_exists, try_except, bind, log,
    emit, ret, raise.
  rewrite Hpdf. cbn.
  destruct (existsb (String.eqb (Py.join root file)) (files w)) eqn:Hpresent;
    cbn.
  - rewrite Hm. cbn. apply Z.ltb_lt in Hold. rewrite Hold. cbn.
    rewrite Hpresent. cbn. rewrite Hrm. cbn.
    rewrite in_remove_file. tauto.
  - intros Hin.
    assert (Hex : existsb (String.eqb (Py.join root file)) (files w) = true).
    { apply existsb_exists. exists (Py.join root file).
      split; [exact Hin | apply String.eqb_refl]. }
    congruence.
Qed.

Lemma purge_files_run (disk : Disk) (cutoff : Z) (root : string)
    (names : list string) :
  forall w,
  exists w',
    purge_files disk cutoff root names w = (Ret tt, w')
    /\ queue_file w' = queue_file w
    /\ sheets w' = sheets w
    /\ (forall q, In q (files w') -> In q (files w))
    /\ (forall q,
          In q (files w) -> ~ In q (files w') ->
          purgeable disk cutoff q
          /\ exists file, In file names /\ q = Py.join root file).
Proof.
  induction names as [|file rest IH]; intros w; cbn [purge_files].
  - exists w. do 3 (split; [reflexivity|]). split; [auto|].
    intros q Hin Hout. elim (Hout Hin).
  - destruct (purge_file_run disk cutoff root file w)
      as (w1 & E1 & Q1 & S1 & F1).
    destruct (IH w1) as (w2 & E2 & Q2 & S2 & M2 & R2).
    exists w2. unfold bind. rewrite E1, E2.
    split; [reflexivity|]. split; [congruence|]. split; [congruence|].
    assert (M1 : forall q, In q (files w1) -> In q (files w)).
    { intros q Hq. destruct F1 as [F1|[F1 _]]; rewrite F1 in Hq;
        [exact Hq|].
      apply in_remove_file in Hq. tauto. }
    split; [intros q Hq; apply M1, M2; exact Hq|].
    intros q Hin Hout.
    destruct (in_dec string_dec q (files w1)) as [Hin1|Hout1].
    + destruct (R2 q Hin1 Hout) as (Hp & f & Hf & ->).
      split; [exact Hp|]. exists f. split; [right; exact Hf | reflexivity].
    + destruct F1 as [F1|[F1 Hp]]; [rewrite F1 in Hout1; elim (Hout1 Hin)|].
      rewrite F1, in_remove_file in Hout1.
      destruct (string_dec q (Py.join root file)) as [->|Hne]; [|tauto].
      split; [exact Hp|]. exists file. split; [left|]; reflexivity.
Qed.

Lemma purge_files_removes (disk : Disk) (cutoff : Z) (root file : string)
    (mtime : Z) (names : list string) :
  In file names ->
  Py.endswith file ".pdf" = true ->
  getmtime disk (Py.join root file) = Ret mtime ->
  (mtime < cutoff)%Z ->
  remove_raises disk (Py.join root file) = None ->
  forall w,
    ~ In (Py.join root file)
        (files (snd (purge_files disk cutoff root names w))).
Proof.
  intros Hin Hpdf Hm Hold Hrm.
  induction names as [|f rest IH]; [destruct Hin|]. intros w.
  cbn [purge_files]. unfold bind.
  destruct (purge_file_run disk cutoff root f w) as (w1 & E1 & _).
  rewrite E1.
  destruct Hin as [->|Hin].
  - destruct (purge_files_run disk cutoff root rest w1)
      as (w2 & E2 & _ & _ & M2 & _).
    rewrite E2. cbn [snd]. intros H. apply M2 in H.
    pose proof (@purge_file_removes disk cutoff root file mtime w
                  Hpdf Hm Hold Hrm) as Hgone.
    rewrite E1 in Hgone. exact (Hgone H).
  - apply (IH Hin).
Qed.

Lemma purge_walk_run (disk : Disk) (cutoff : Z)
    (triples : list (string * (list string * list string))) :
  forall w,
  exists w',
    purge_walk disk cutoff triples w = (Ret tt, w')
    /\ queue_file w' = queue_file w
    /\ sheets w' = sheets w
    /\ (forall q, In q (files w') -> In q (files w))
    /\ (forall q,
          In q (files w) -> ~ In q (files w') ->
          purgeable disk cutoff q
          /\ exists root dirs names file,
               In (root, (dirs, names)) triples
               /\ In file names /\ q = Py.join root file).
Proof.
  induction triples as [|[root [dirs names]] rest IH]; intros w;
    cbn [purge_walk].
  - exists w. do 3 (split; [reflexivity|]). split; [auto|].
    intros q Hin Hout. elim (Hout Hin).
  - destruct (purge_files_run disk cutoff root names w)
      as (w1 & E1 & Q1 & S1 & M1 & R1).
    destruct (IH w1) as (w2 & E2 & Q2 & S2 & M2 & R2).
    exists w2. unfold bind. rewrite E1, E2.
    split; [reflexivity|]. split; [congruence|]. split; [congruence|].
    split; [intros q Hq; apply M1, M2; exact Hq|].
    intros q Hin Hout.
    destruct (in_dec string_dec q (files w1)) as [Hin1|Hout1].
    + destruct (R2 q Hin1 Hout) as (Hp & r & d & n & f & Ht & Hf & ->).
      split; [exact Hp|]. exists r, d, n, f. repeat split; auto.
      right. exact Ht.
    + destruct (R1 q Hin Hout1) as (Hp & f & Hf & ->).
      split; [exact Hp|]. exists root, dirs, names, f. repeat split; auto.
      left. reflexivity.
Qed.

Lemma purge_walk_removes (disk : Disk) (cutoff : Z)
    (root file : string) (dirs names : list string) (mtime : Z)
    (triples : list (string * (list string * list string))) :
  In (root, (dirs, names)) triples ->
  In file names ->
  Py.endswith file ".pdf" = true ->
  getmtime disk (Py.join root file) = Ret mtime ->
  (mtime < cutoff)%Z ->
  remove_raises disk (Py.join root file) = None ->
  forall w,
    ~ In (Py.join root file) (files (snd (purge_walk disk cutoff triples w))).
Proof.
  intros Ht Hin Hpdf Hm Hold Hrm.
  induction triples as [|[r [d n]] rest IH]; [destruct Ht|]. intros w.
  cbn [purge_walk]. unfold bind.
  destruct (purge_files_run disk cutoff r n w) as (w1 & E1 & _).
  rewrite E1.
  destruct Ht as [Ht|Ht].
  - injection Ht as -> -> ->.
    destruct (purge_walk_run disk cutoff rest w1)
      as (w2 & E2 & _ & _ & M2 & _).
    rewrite E2. cbn [snd]. intros H. apply M2 in H.
    pose proof (@purge_files_removes disk cutoff root file mtime names
                  Hin Hpdf Hm Hold Hrm w) as Hgone.
    rewrite E1 in Hgone. exact (Hgone H).
  - apply (IH Ht).
Qed.

(** [delete_old_pdfs] never raises and touches neither the queue nor the
    spreadsheets.  It only removes files: each removed file is listed by
    the walk of the output folder, has a path ending in [.pdf] and a
    modification time strictly before the cutoff.  A document whose path
    does not end in [.pdf] is never purged. *)
Theorem delete_old_pdfs_removes_only_old_pdfs (disk : Disk)
    (self : PDFHandler) (retention_days : Z) (w : World) :
  let cutoff := (time_now disk - retention_days * 86400)%Z in
  let w' := snd (delete_old_pdfs disk self retention_days w) in
  fst (delete_old_pdfs disk self retention_days w) = Ret tt
  /\ queue_file w' = queue_file w
  /\ sheets w' = sheets w
  /\ (forall q, In q (files w') -> In q (files w))
  /\ (forall q,
        In q (files w) -> ~ In q (files w') ->
        purgeable disk cutoff q /\ listed disk self q)
  /\ (forall q,
        In q (files w) -> Py.endswith q ".pdf" = false -> In q (files w')).
Proof.
  cbv zeta. unfold delete_old_pdfs.
  destruct (purge_walk_run disk (time_now disk - retention_days * 86400)
              (walk disk (output_dir self)) w) as (w' & E & Q & S & M & R).
  rewrite E. cbn [fst snd].
  split; [reflexivity|]. split; [exact Q|]. split; [exact S|].
  split; [exact M|]. split.
  - intros q Hin Hout. destruct (R q Hin Hout) as [Hp Hl].
    split; [exact Hp | exact Hl].
  - intros q Hin Hext.
    destruct (in_dec string_dec q (files w')) as [H|H]; [exact H|].
    destruct (R q Hin H) as [[Hpdf _] _]. congruence.
Qed.

(** Every file the walk lists with a name ending in [.pdf], a
    modification time before the cutoff and a removal that does not raise
    is gone after [delete_old_pdfs], whatever happened with the other
    files. *)
Theorem delete_old_pdfs_removes_every_old_pdf (disk : Disk)
    (self : PDFHandler) (retention_days : Z) (w : World)
    (root file : string) (dirs names : list string) (mtime : Z) :
  In (root, (dirs, names)) (walk disk (output_dir self)) ->
  In file names ->
  Py.endswith file ".pdf" = true ->
  getmtime disk (Py.join root file) = Ret mtime ->
  (mtime < time_now disk - retention_days * 86400)%Z ->
  remove_raises disk (Py.join root file) = None ->
  ~ In (Py.join root file)
      (files (snd (delete_old_pdfs disk self retention_days w))).
Proof.
  intros Ht Hin Hpdf Hm Hold Hrm. unfold delete_old_pdfs.
  exact (@purge_walk_removes disk _ root file dirs names mtime _
           Ht Hin Hpdf Hm Hold Hrm w).
Qed.

Lemma delete_old_pdfs_removes_every_old_pdf_witness :
  ~ In "/home/u/PDF_Prints/2024/old.pdf"
      (files (snd (delete_old_pdfs disk0 handler0 7 world_disk))).
Proof.
  apply (@delete_old_pdfs_removes_every_old_pdf disk0 handler0 7 world_disk
           "/home/u/PDF_Prints/2024" "old.pdf" [] ["old.pdf"; "new.pdf"; "invoice"]
           1000%Z).
  - right. left. reflexivity.
  - left. reflexivity.
  - reflexivity.
  - reflexivity.
  - reflexivity.
  - reflexivity.
Defined.

Lemma delete_old_pdfs_removes_only_old_pdfs_witness :
  In "/home/u/PDF_Prints/2024/invoice"
     (files (snd (delete_old_pdfs disk0 handler0 7 world_disk))).
Proof.
  destruct (delete_old_pdfs_removes_only_old_pdfs disk0 handler0 7 world_disk)
    as (_ & _ & _ & _ & _ & H).
  apply H.
  - right. right. left. reflexivity.
  - reflexivity.
Defined.
